(** * Todo application: the stores of [src/todo_app.py]

    The class [Database] wraps an SQLite connection.  Every method is one SQL
    statement followed by a commit, so the store is modelled by explicit state
    passing: a [database] value holds the two tables in rowid order, and each
    method maps a state to a new state and a Python return value.

    - [Module Sql]: the part of SQLite's expression semantics the statements
      use (three-valued logic, NULL ordering, [ORDER BY]).
    - [Module Hashlib]: [hashlib.pbkdf2_hmac] with SHA-256, which the
      credential methods call.
    - [Module Clock]: the [strftime] formats of the clock readings.
    - [Module Python], [Module TodoApp]: the calling convention and the two
      view handlers that decide what reaches the store.

    Definitions come first, in the order of the source; the proofs follow. *)

From Stdlib Require Import ZArith NArith List Bool Lia.
From Stdlib Require Import Strings.String Strings.Ascii Strings.Byte.
From Stdlib Require Import Sorted Permutation.
Import ListNotations.

Local Open Scope string_scope.
Local Open Scope list_scope.
Local Open Scope Z_scope.

(** ** SQLite expression semantics *)

Module Sql.

(** A truth value of SQL; [None] is NULL. *)
Definition truth := option bool.

Definition and3 (a b : truth) : truth :=
  match a, b with
  | Some false, _ => Some false
  | _, Some false => Some false
  | Some true, Some true => Some true
  | _, _ => None
  end.

Definition or3 (a b : truth) : truth :=
  match a, b with
  | Some true, _ => Some true
  | _, Some true => Some true
  | Some false, Some false => Some false
  | _, _ => None
  end.

(** Comparison operators: NULL when an operand is NULL.  TEXT is compared
    with the BINARY collation, byte by byte. *)
Definition eq_int (a b : option Z) : truth :=
  match a, b with
  | Some x, Some y => Some (x =? y)
  | _, _ => None
  end.

Definition eq_text (a b : option string) : truth :=
  match a, b with
  | Some x, Some y => Some (String.eqb x y)
  | _, _ => None
  end.

Definition lt_text (a b : option string) : truth :=
  match a, b with
  | Some x, Some y => Some (String.ltb x y)
  | _, _ => None
  end.

Definition is_not_null {A : Type} (a : option A) : truth :=
  match a with
  | Some _ => Some true
  | None => Some false
  end.

(** A [WHERE] clause keeps the rows on which the expression is true;
    false and NULL both drop the row. *)
Definition holds (t : truth) : bool :=
  match t with
  | Some true => true
  | _ => false
  end.

Definition select_where {R : Type} (w : R -> truth) (rows : list R) : list R :=
  filter (fun r => holds (w r)) rows.

(** [UPDATE ... WHERE]: every row on which the clause holds is rewritten;
    the cursor's rowcount is the number of such rows, whether or not the
    new values differ from the old ones. *)
Definition update_where {R : Type} (w : R -> truth) (set : R -> R)
    (rows : list R) : list R :=
  map (fun r => if holds (w r) then set r else r) rows.

Definition delete_where {R : Type} (w : R -> truth) (rows : list R) : list R :=
  filter (fun r => negb (holds (w r))) rows.

Definition rowcount {R : Type} (w : R -> truth) (rows : list R) : Z :=
  Z.of_nat (List.length (select_where w rows)).

(** [ORDER BY]: NULL sorts before every other value in ascending order. *)
Definition nulls_first {A : Type} (cmp : A -> A -> comparison)
    (x y : option A) : comparison :=
  match x, y with
  | None, None => Eq
  | None, Some _ => Lt
  | Some _, None => Gt
  | Some a, Some b => cmp a b
  end.

Definition descending {A : Type} (cmp : A -> A -> comparison)
    (x y : A) : comparison :=
  cmp y x.

Definition then_by (c1 c2 : comparison) : comparison :=
  match c1 with
  | Eq => c2
  | _ => c1
  end.

(** Two ordering terms, the second used on ties of the first. *)
Definition lex {A B : Type} (ca : A -> A -> comparison)
    (cb : B -> B -> comparison) (x y : A * B) : comparison :=
  then_by (ca (fst x) (fst y)) (cb (snd x) (snd y)).

Definition not_after (c : comparison) : bool :=
  match c with
  | Gt => false
  | _ => true
  end.

(** The sorter: rows are taken in scan order and each is placed before the
    first row that does not precede it.  SQLite leaves the relative order of
    rows with equal keys unspecified; this model keeps them in scan order. *)
Fixpoint insert_row {R : Type} (le : R -> R -> bool) (x : R) (l : list R)
    : list R :=
  match l with
  | [] => [x]
  | y :: l' => if le x y then x :: l else y :: insert_row le x l'
  end.

Definition order_by {R K : Type} (key : R -> K)
    (cmp : K -> K -> comparison) (rows : list R) : list R :=
  fold_right (insert_row (fun a b => not_after (cmp (key a) (key b)))) [] rows.

End Sql.

(** A comparison function that is a total order on its keys. *)
Class Comparator {A : Type} (cmp : A -> A -> comparison) : Prop := {
  cmp_eq : forall x y, cmp x y = Eq -> x = y;
  cmp_refl : forall x, cmp x x = Eq;
  cmp_flip : forall x y, cmp y x = CompOpp (cmp x y);
  cmp_lt_trans : forall x y z, cmp x y = Lt -> cmp y z = Lt -> cmp x z = Lt
}.

(** ** The schema *)

(** [users(id, username UNIQUE NOT NULL, password_hash NOT NULL)].  The only
    writer, [register_user], binds a Python [bytes] value to [password_hash],
    which SQLite stores and returns as a BLOB. *)
Module Users.
Record row := {
  id : Z;
  username : string;
  password_hash : list byte
}.
End Users.

(** [todos]: the nine columns of the CREATE TABLE statement.  [due_time] and
    [completed_date] are the two columns the code writes NULL to; the others
    always receive a Python [int] or [str]. *)
Module Todos.
Record row := {
  id : Z;
  user_id : Z;
  date : string;
  title : string;
  description : string;
  status : string;
  due_time : option string;
  completed_date : option string;
  priority : string
}.
End Todos.

(** The seven-column tuples the three SELECT statements return:
    [id, date, title, description, status, due_time, priority]. *)
Module Selected.
Record row := {
  todo_id : Z;
  date : string;
  title : string;
  description : string;
  status : string;
  due_time : option string;
  priority : string
}.
End Selected.

(** The store: both tables in rowid order, and for each the largest rowid
    handed out so far (AUTOINCREMENT). *)
Record database := {
  users : list Users.row;
  users_seq : Z;
  todos : list Todos.row;
  todos_seq : Z
}.

Definition empty_database : database :=
  {| users := []; users_seq := 0; todos := []; todos_seq := 0 |}.

Definition with_todos (db : database) (rows : list Todos.row) : database :=
  {| users := users db; users_seq := users_seq db;
     todos := rows; todos_seq := todos_seq db |}.

Definition select_columns (r : Todos.row) : Selected.row :=
  {| Selected.todo_id := Todos.id r;
     Selected.date := Todos.date r;
     Selected.title := Todos.title r;
     Selected.description := Todos.description r;
     Selected.status := Todos.status r;
     Selected.due_time := Todos.due_time r;
     Selected.priority := Todos.priority r |}.

(** [CASE priority WHEN 'high' THEN 1 WHEN 'medium' THEN 2 WHEN 'low' THEN 3 END]:
    without an ELSE branch every other priority yields NULL. *)
Definition priority_rank (priority : string) : option Z :=
  if String.eqb priority "high" then Some 1
  else if String.eqb priority "medium" then Some 2
  else if String.eqb priority "low" then Some 3
  else None.

(** ** Database: the todo methods *)

(** [add_todo]: one INSERT; [status] and [completed_date] take their column
    defaults.  Returns [cursor.lastrowid]. *)
Definition add_todo (db : database) (user_id : Z) (date title description : string)
    (due_time : option string) (priority : string) : database * Z :=
  let rowid := todos_seq db + 1 in
  let r := {| Todos.id := rowid;
              Todos.user_id := user_id;
              Todos.date := date;
              Todos.title := title;
              Todos.description := description;
              Todos.status := "pending";
              Todos.due_time := due_time;
              Todos.completed_date := None;
              Todos.priority := priority |} in
  ({| users := users db; users_seq := users_seq db;
      todos := todos db ++ [r]; todos_seq := rowid |}, rowid).

(** [get_todos_by_date]:
    [WHERE user_id = ? AND date = ? ORDER BY CASE priority ... END, id DESC]. *)
Definition by_date_where (user_id : Z) (date : string) (r : Todos.row) : Sql.truth :=
  Sql.and3 (Sql.eq_int (Some (Todos.user_id r)) (Some user_id))
           (Sql.eq_text (Some (Todos.date r)) (Some date)).

Definition by_date_key (r : Todos.row) : option Z * Z :=
  (priority_rank (Todos.priority r), Todos.id r).

Definition by_date_cmp : option Z * Z -> option Z * Z -> comparison :=
  Sql.lex (Sql.nulls_first Z.compare) (Sql.descending Z.compare).

Definition get_todos_by_date (db : database) (user_id : Z) (date : string)
    : list Selected.row :=
  map select_columns
    (Sql.order_by by_date_key by_date_cmp
       (Sql.select_where (by_date_where user_id date) (todos db))).

(** [get_todos_by_priority]:
    [WHERE user_id = ? AND status = 'pending'
     ORDER BY CASE priority ... END, date ASC, due_time ASC]. *)
Definition by_priority_where (user_id : Z) (r : Todos.row) : Sql.truth :=
  Sql.and3 (Sql.eq_int (Some (Todos.user_id r)) (Some user_id))
           (Sql.eq_text (Some (Todos.status r)) (Some "pending")).

Definition by_priority_key (r : Todos.row) : option Z * (string * option string) :=
  (priority_rank (Todos.priority r), (Todos.date r, Todos.due_time r)).

Definition by_priority_cmp
    : option Z * (string * option string) ->
      option Z * (string * option string) -> comparison :=
  Sql.lex (Sql.nulls_first Z.compare)
          (Sql.lex String.compare (Sql.nulls_first String.compare)).

Definition get_todos_by_priority (db : database) (user_id : Z)
    : list Selected.row :=
  map select_columns
    (Sql.order_by by_priority_key by_priority_cmp
       (Sql.select_where (by_priority_where user_id) (todos db))).

(** [update_todo]: the SET list is built at run time.  [title] and
    [description] are always assigned; [due_time] and [priority] only when the
    argument is not [None]. *)
Inductive assignment :=
| SetTitle (v : string)
| SetDescription (v : string)
| SetDueTime (v : string)
| SetPriority (v : string)
| SetStatus (v : string)
| SetCompletedDate (v : option string).

Definition assign (r : Todos.row) (a : assignment) : Todos.row :=
  let mk title description status due_time completed_date priority :=
    {| Todos.id := Todos.id r;
       Todos.user_id := Todos.user_id r;
       Todos.date := Todos.date r;
       Todos.title := title;
       Todos.description := description;
       Todos.status := status;
       Todos.due_time := due_time;
       Todos.completed_date := completed_date;
       Todos.priority := priority |} in
  match a with
  | SetTitle v =>
      mk v (Todos.description r) (Todos.status r) (Todos.due_time r)
         (Todos.completed_date r) (Todos.priority r)
  | SetDescription v =>
      mk (Todos.title r) v (Todos.status r) (Todos.due_time r)
         (Todos.completed_date r) (Todos.priority r)
  | SetDueTime v =>
      mk (Todos.title r) (Todos.description r) (Todos.status r) (Some v)
         (Todos.completed_date r) (Todos.priority r)
  | SetPriority v =>
      mk (Todos.title r) (Todos.description r) (Todos.status r) (Todos.due_time r)
         (Todos.completed_date r) v
  | SetStatus v =>
      mk (Todos.title r) (Todos.description r) v (Todos.due_time r)
         (Todos.completed_date r) (Todos.priority r)
  | SetCompletedDate v =>
      mk (Todos.title r) (Todos.description r) (Todos.status r) (Todos.due_time r)
         v (Todos.priority r)
  end.

Definition assign_all (set : list assignment) (r : Todos.row) : Todos.row :=
  fold_left assign set r.

(** [WHERE id = ?] *)
Definition id_where (todo_id : Z) (r : Todos.row) : Sql.truth :=
  Sql.eq_int (Some (Todos.id r)) (Some todo_id).

Definition update_todo_query (title description : string)
    (due_time priority : option string) : list assignment :=
  [SetTitle title; SetDescription description]
  ++ match due_time with
     | Some v => [SetDueTime v]
     | None => []
     end
  ++ match priority with
     | Some v => [SetPriority v]
     | None => []
     end.

Definition update_todo (db : database) (todo_id : Z) (title description : string)
    (due_time priority : option string) : database * bool :=
  let query := update_todo_query title description due_time priority in
  (with_todos db (Sql.update_where (id_where todo_id) (assign_all query) (todos db)),
   0 <? Sql.rowcount (id_where todo_id) (todos db)).

(** [delete_todo]: [DELETE FROM todos WHERE id = ?]. *)
Definition delete_todo (db : database) (todo_id : Z) : database * bool :=
  (with_todos db (Sql.delete_where (id_where todo_id) (todos db)),
   0 <? Sql.rowcount (id_where todo_id) (todos db)).

(** [mark_todo_as_done]: [now] is the clock reading formatted by
    [strftime("%Y-%m-%d %H:%M:%S")]. *)
Definition mark_todo_as_done (db : database) (todo_id : Z) (now : string)
    : database * bool :=
  let completed_date := now in
  (with_todos db
     (Sql.update_where (id_where todo_id)
        (assign_all [SetStatus "completed"; SetCompletedDate (Some completed_date)])
        (todos db)),
   0 <? Sql.rowcount (id_where todo_id) (todos db)).

(** [mark_todo_as_pending] *)
Definition mark_todo_as_pending (db : database) (todo_id : Z) : database * bool :=
  (with_todos db
     (Sql.update_where (id_where todo_id)
        (assign_all [SetStatus "pending"; SetCompletedDate None])
        (todos db)),
   0 <? Sql.rowcount (id_where todo_id) (todos db)).

(** [get_todo_stats]: three COUNT queries.  [current_date] and
    [current_time] are the clock readings formatted by [strftime("%Y-%m-%d")]
    and [strftime("%H:%M")]. *)
Record stats := {
  completed : Z;
  pending : Z;
  overdue : Z
}.

Definition completed_where (user_id : Z) (r : Todos.row) : Sql.truth :=
  Sql.and3 (Sql.eq_int (Some (Todos.user_id r)) (Some user_id))
           (Sql.eq_text (Some (Todos.status r)) (Some "completed")).

Definition pending_where (user_id : Z) (r : Todos.row) : Sql.truth :=
  Sql.and3 (Sql.eq_int (Some (Todos.user_id r)) (Some user_id))
           (Sql.eq_text (Some (Todos.status r)) (Some "pending")).

(** [user_id = ? AND status = 'pending'
     AND (date < ? OR (date = ? AND due_time < ? AND due_time IS NOT NULL))] *)
Definition overdue_where (user_id : Z) (current_date current_time : string)
    (r : Todos.row) : Sql.truth :=
  Sql.and3
    (Sql.and3 (Sql.eq_int (Some (Todos.user_id r)) (Some user_id))
              (Sql.eq_text (Some (Todos.status r)) (Some "pending")))
    (Sql.or3 (Sql.lt_text (Some (Todos.date r)) (Some current_date))
             (Sql.and3
                (Sql.and3 (Sql.eq_text (Some (Todos.date r)) (Some current_date))
                          (Sql.lt_text (Todos.due_time r) (Some current_time)))
                (Sql.is_not_null (Todos.due_time r)))).

Definition get_todo_stats (db : database) (user_id : Z)
    (current_date current_time : string) : stats :=
  let completed_count := Sql.rowcount (completed_where user_id) (todos db) in
  let pending_count := Sql.rowcount (pending_where user_id) (todos db) in
  let overdue_count :=
    Sql.rowcount (overdue_where user_id current_date current_time) (todos db) in
  {| completed := completed_count;
     pending := pending_count;
     overdue := overdue_count |}.

(** ** hashlib.pbkdf2_hmac('sha256', password, salt, iterations)

    The key derivation the credential methods call: PBKDF2 (RFC 8018) with
    HMAC (RFC 2104) over SHA-256 (FIPS 180-4) and the default key length of
    one digest.  32-bit words are integers reduced modulo 2^32. *)

Module Hashlib.

Definition wrap (x : Z) : Z := x mod 4294967296.

Definition rotr (n x : Z) : Z :=
  Z.lor (Z.shiftr x n) (wrap (Z.shiftl x (32 - n))).

Definition ch (x y z : Z) : Z :=
  Z.lxor (Z.land x y) (Z.land (Z.lxor x 4294967295) z).

Definition maj (x y z : Z) : Z :=
  Z.lxor (Z.lxor (Z.land x y) (Z.land x z)) (Z.land y z).

Definition big_sigma0 (x : Z) : Z :=
  Z.lxor (Z.lxor (rotr 2 x) (rotr 13 x)) (rotr 22 x).

Definition big_sigma1 (x : Z) : Z :=
  Z.lxor (Z.lxor (rotr 6 x) (rotr 11 x)) (rotr 25 x).

Definition small_sigma0 (x : Z) : Z :=
  Z.lxor (Z.lxor (rotr 7 x) (rotr 18 x)) (Z.shiftr x 3).

Definition small_sigma1 (x : Z) : Z :=
  Z.lxor (Z.lxor (rotr 17 x) (rotr 19 x)) (Z.shiftr x 10).

(** The constants of FIPS 180-4: the first 32 bits of the fractional parts
    of the cube roots of the first 64 primes, and of the square roots of the
    first 8 primes. *)
Definition is_prime (n : Z) : bool :=
  forallb (fun d => negb (n mod d =? 0))
          (map Z.of_nat (seq 2 (Z.to_nat n - 2))).

Definition first_primes (count : nat) : list Z :=
  firstn count (filter is_prime (map Z.of_nat (seq 2 310))).

(** The largest [r] below [2 ^ bits] above [r0] with [r ^ 3 <= n], bit by bit. *)
Fixpoint cube_root_from (bits : nat) (n r0 : Z) : Z :=
  match bits with
  | O => r0
  | S bits' =>
      let r1 := r0 + 2 ^ Z.of_nat bits' in
      if r1 * r1 * r1 <=? n
      then cube_root_from bits' n r1
      else cube_root_from bits' n r0
  end.

Definition cube_root (n : Z) : Z := cube_root_from 40 n 0.

Definition round_constants : list Z :=
  Eval vm_compute in
    map (fun p => wrap (cube_root (p * 2 ^ 96))) (first_primes 64).

Definition initial_hash : list Z :=
  Eval vm_compute in
    map (fun p => wrap (Z.sqrt (p * 2 ^ 64))) (first_primes 8).

Definition byte_to_Z (b : byte) : Z := Z.of_N (Byte.to_N b).

Definition byte_of_Z (z : Z) : byte :=
  match Byte.of_N (Z.to_N (z mod 256)) with
  | Some b => b
  | None => x00
  end.

(** The big-endian bytes of an integer, [n] of them. *)
Fixpoint big_endian (n : nat) (x : Z) : list Z :=
  match n with
  | O => []
  | S n' => (Z.shiftr x (8 * Z.of_nat n')) mod 256 :: big_endian n' x
  end.

(** Message padding: a one bit, zeros up to 56 modulo 64 bytes, and the
    message length in bits on eight bytes. *)
Definition pad (msg : list Z) : list Z :=
  let len := Z.of_nat (List.length msg) in
  let zeros := Z.to_nat ((55 - len) mod 64) in
  msg ++ [128] ++ repeat 0 zeros ++ big_endian 8 (8 * len).

Fixpoint chunks (size fuel : nat) (l : list Z) : list (list Z) :=
  match fuel with
  | O => []
  | S fuel' =>
      match l with
      | [] => []
      | _ => firstn size l :: chunks size fuel' (skipn size l)
      end
  end.

Definition word_of_bytes (bs : list Z) : Z :=
  fold_left (fun acc b => acc * 256 + b) bs 0.

Definition block_words (block : list Z) : list Z :=
  map word_of_bytes (chunks 4 16 block).

(** The message schedule: sixteen words of the block, then 48 derived. *)
Fixpoint schedule (n : nat) (w : list Z) : list Z :=
  match n with
  | O => w
  | S n' =>
      let t := List.length w in
      let at_ (k : nat) := nth (t - k) w 0 in
      schedule n'
        (w ++ [wrap (small_sigma1 (at_ 2%nat) + at_ 7%nat
                     + small_sigma0 (at_ 15%nat) + at_ 16%nat)])
  end.

Record registers := {
  ra : Z; rb : Z; rc : Z; rd : Z; re : Z; rf : Z; rg : Z; rh : Z
}.

Definition round (s : registers) (kw : Z * Z) : registers :=
  let t1 := wrap (rh s + big_sigma1 (re s) + ch (re s) (rf s) (rg s)
                  + fst kw + snd kw) in
  let t2 := wrap (big_sigma0 (ra s) + maj (ra s) (rb s) (rc s)) in
  {| ra := wrap (t1 + t2); rb := ra s; rc := rb s; rd := rc s;
     re := wrap (rd s + t1); rf := re s; rg := rf s; rh := rg s |}.

Definition registers_of (h : list Z) : registers :=
  {| ra := nth 0 h 0; rb := nth 1 h 0; rc := nth 2 h 0; rd := nth 3 h 0;
     re := nth 4 h 0; rf := nth 5 h 0; rg := nth 6 h 0; rh := nth 7 h 0 |}.

Definition compress (h : list Z) (block : list Z) : list Z :=
  let w := schedule 48 (block_words block) in
  let s := fold_left round (combine round_constants w) (registers_of h) in
  map (fun p => wrap (fst p + snd p))
      (combine h [ra s; rb s; rc s; rd s; re s; rf s; rg s; rh s]).

Definition sha256 (msg : list byte) : list byte :=
  let padded := pad (map byte_to_Z msg) in
  let blocks := chunks 64 (List.length padded) padded in
  map byte_of_Z (flat_map (big_endian 4) (fold_left compress blocks initial_hash)).

(** HMAC.  A key longer than one block is hashed first; the key is then
    filled with zero bytes up to the block size. *)
Definition block_size : nat := 64.

Definition hmac_key (key : list byte) : list byte :=
  let k := if (block_size <? List.length key)%nat then sha256 key else key in
  k ++ repeat x00 (block_size - List.length k).

Definition xor_byte (a b : byte) : byte :=
  byte_of_Z (Z.lxor (byte_to_Z a) (byte_to_Z b)).

Definition hmac_padded (k0 msg : list byte) : list byte :=
  sha256 (map (xor_byte x5c) k0 ++ sha256 (map (xor_byte x36) k0 ++ msg)).

Definition hmac_sha256 (key msg : list byte) : list byte :=
  hmac_padded (hmac_key key) msg.

(** PBKDF2 with a derived key of one digest: the single block
    [U_1 xor ... xor U_c], with the password as the HMAC key. *)
Definition xor_bytes (a b : list byte) : list byte :=
  map (fun p => xor_byte (fst p) (snd p)) (combine a b).

Definition pbkdf2_step (k0 : list byte) (ut : list byte * list byte)
    : list byte * list byte :=
  let u' := hmac_padded k0 (fst ut) in
  (u', xor_bytes (snd ut) u').

Definition pbkdf2_padded (k0 salt : list byte) (iterations : N) : list byte :=
  let u1 := hmac_padded k0 (salt ++ map byte_of_Z (big_endian 4 1)) in
  snd (N.iter (iterations - 1) (pbkdf2_step k0) (u1, u1)).

Definition pbkdf2_hmac_sha256 (password salt : list byte) (iterations : N)
    : list byte :=
  pbkdf2_padded (hmac_key password) salt iterations.

End Hashlib.

(** ** Database: the credential methods *)

(** [str.encode('utf-8')]: a Python string is modelled by the bytes of its
    UTF-8 encoding, so encoding only changes the representation. *)
Definition encode_utf8 (s : string) : list byte := list_byte_of_string s.

Fixpoint bytes_eqb (a b : list byte) : bool :=
  match a, b with
  | [], [] => true
  | x :: a', y :: b' => Byte.eqb x y && bytes_eqb a' b'
  | _, _ => false
  end.

Definition pbkdf2_iterations : N := 100000.

(** [hash_password]: [salt] is the value drawn from [os.urandom(32)]. *)
Definition hash_password (password : string) (salt : list byte) : list byte :=
  let key :=
    Hashlib.pbkdf2_hmac_sha256 (encode_utf8 password) salt pbkdf2_iterations in
  salt ++ key.

Definition verify_password (stored_password : list byte)
    (provided_password : string) : bool :=
  let salt := firstn 32 stored_password in
  let stored_key := skipn 32 stored_password in
  let key :=
    Hashlib.pbkdf2_hmac_sha256 (encode_utf8 provided_password) salt
      pbkdf2_iterations in
  bytes_eqb key stored_key.

(** [WHERE username = ?] *)
Definition username_where (username : string) (u : Users.row) : Sql.truth :=
  Sql.eq_text (Some (Users.username u)) (Some username).

(** [register_user]: the INSERT raises IntegrityError on a username that is
    already in the table (UNIQUE), which the method turns into [False]. *)
Definition register_user (db : database) (username password : string)
    (salt : list byte) : database * bool :=
  let password_hash := hash_password password salt in
  match Sql.select_where (username_where username) (users db) with
  | [] =>
      let rowid := users_seq db + 1 in
      ({| users := users db ++ [{| Users.id := rowid;
                                   Users.username := username;
                                   Users.password_hash := password_hash |}];
          users_seq := rowid;
          todos := todos db; todos_seq := todos_seq db |}, true)
  | _ :: _ => (db, false)
  end.

(** [authenticate_user]: [fetchone] takes the first selected row.  The stored
    value is a BLOB, so the [isinstance(stored_password, str)] branch is not
    taken. *)
Definition authenticate_user (db : database) (username password : string)
    : option Z :=
  match Sql.select_where (username_where username) (users db) with
  | result :: _ =>
      let user_id := Users.id result in
      let stored_password := Users.password_hash result in
      if verify_password stored_password password then Some user_id else None
  | [] => None
  end.

(** ** The clock

    [datetime.now()] and the three [strftime] formats the code uses.  The
    fields are zero padded, which holds for the years 1000 to 9999. *)

Module Clock.

Record datetime := {
  year : Z;
  month : Z;
  day : Z;
  hour : Z;
  minute : Z;
  second : Z
}.

Definition valid (t : datetime) : Prop :=
  1000 <= year t <= 9999
  /\ 1 <= month t <= 12
  /\ 1 <= day t <= 31
  /\ 0 <= hour t <= 23
  /\ 0 <= minute t <= 59
  /\ 0 <= second t <= 59.

Definition digit (n : Z) : ascii := ascii_of_N (48 + Z.to_N (n mod 10)).

Definition two_digits (n : Z) (rest : string) : string :=
  String (digit (n / 10)) (String (digit n) rest).

Definition four_digits (n : Z) (rest : string) : string :=
  two_digits (n / 100) (two_digits (n mod 100) rest).

(** [strftime("%Y-%m-%d")] *)
Definition strftime_date (t : datetime) : string :=
  four_digits (year t)
    (String "-" (two_digits (month t) (String "-" (two_digits (day t) "")))).

(** [strftime("%H:%M")] *)
Definition strftime_time (t : datetime) : string :=
  two_digits (hour t) (String ":" (two_digits (minute t) "")).

(** [strftime("%Y-%m-%d %H:%M:%S")] *)
Definition strftime_timestamp (t : datetime) : string :=
  four_digits (year t)
    (String "-" (two_digits (month t) (String "-" (two_digits (day t)
      (String " " (two_digits (hour t) (String ":" (two_digits (minute t)
        (String ":" (two_digits (second t) "")))))))))).

(** Calendar and clock order. *)
Definition date_before (a b : datetime) : Prop :=
  year a < year b
  \/ (year a = year b
      /\ (month a < month b \/ (month a = month b /\ day a < day b))).

Definition same_date (a b : datetime) : Prop :=
  year a = year b /\ month a = month b /\ day a = day b.

Definition time_before (a b : datetime) : Prop :=
  hour a < hour b \/ (hour a = hour b /\ minute a < minute b).

End Clock.

(** ** Python calls

    The one place where the behaviour of the code is decided by Python's
    calling convention rather than by SQL: a call either returns a value or
    raises. *)

Module Python.

Inductive exception :=
| TypeError
| AttributeError.

Inductive outcome (A : Type) :=
| Return (a : A)
| Raise (e : exception).

Arguments Return {A} a.
Arguments Raise {A} e.

Definition bind {A B : Type} (m : outcome A) (k : A -> outcome B) : outcome B :=
  match m with
  | Return a => k a
  | Raise e => Raise e
  end.

(** A positional argument of a call. *)
Inductive value :=
| Int (z : Z)
| Str (s : string).

End Python.

(** The instance attributes [Database.__init__] sets. *)
Definition Database_attributes : list string := ["conn"; "cursor"].

(** Reading [self.name] on a [Database] instance. *)
Definition Database_getattr (name : string) : Python.outcome unit :=
  if existsb (String.eqb name) Database_attributes
  then Python.Return tt
  else Python.Raise Python.AttributeError.

(** [Database.search_todos(self)], lines 137-177.  The method declares no
    parameter besides [self], so a call with further positional arguments
    raises TypeError before the body runs.  The body is the view's search
    handler: it reads [self.search_entry], [self.tree] and [self.db] in that
    order and returns nothing. *)
Definition search_todos (db : database) (args : list Python.value)
    : Python.outcome (option (list Selected.row)) :=
  match args with
  | [] =>
      Python.bind (Database_getattr "search_entry") (fun _ =>
      Python.bind (Database_getattr "tree") (fun _ =>
      Python.bind (Database_getattr "db") (fun _ =>
      Python.Return None)))
  | _ :: _ => Python.Raise Python.TypeError
  end.

(** ** TodoApp: the two handlers that decide what reaches the store *)

Module TodoApp.

Inductive messagebox :=
| showerror (title message : string)
| showinfo (title message : string).

(** The part of the view a handler reads: the logged-in user, the selected
    row, the label of the save button and the calendar's date. *)
Record view := {
  user_id : Z;
  selected_todo_id : option Z;
  save_btn : string;
  calendar : string
}.

(** The form fields as the handler sees them, after [strip()]. *)
Record form := {
  title_entry : string;
  description_text : string;
  due_time_entry : string;
  priority_var : string
}.

(** Truth value of a Python string. *)
Definition truthy (s : string) : bool := negb (String.eqb s "").

Definition optional (s : string) : option string :=
  if truthy s then Some s else None.

Section SaveTodo.

(** [validate_time_format]: whether [strptime(time_str, "%H:%M")]
    accepts the string. *)
Variable validate_time_format : string -> bool.

(** [save_todo], lines 707-761.  [current_date] and [current_time] are
    the clock readings formatted by [strftime]. *)
Definition save_todo (db : database) (v : view) (f : form)
    (current_date current_time : string) : database * messagebox :=
  let title := title_entry f in
  let description := description_text f in
  let due_time := due_time_entry f in
  let priority := priority_var f in
  if truthy due_time && negb (validate_time_format due_time) then
    (db, showerror "Error" "Due time must be in HH:MM format")
  else if negb (truthy title) then
    (db, showerror "Error" "Title is required")
  else
    let selected_date := calendar v in
    if String.eqb (save_btn v) "Add Todo"
       && String.ltb selected_date current_date then
      (db, showerror "Error" "Cannot add todos for past dates")
    else if String.eqb (save_btn v) "Add Todo"
            && String.eqb selected_date current_date
            && truthy due_time
            && String.ltb due_time current_time then
      (db, showerror "Error" "Cannot add todos with past time")
    else if String.eqb (save_btn v) "Update Todo" then
      match selected_todo_id v with
      | Some todo_id =>
          let (db', ok) :=
            update_todo db todo_id title description
                        (optional due_time) (Some priority) in
          if ok then (db', showinfo "Success" "Todo updated successfully")
          else (db', showerror "Error" "Failed to update todo")
      | None => (db, showerror "Error" "Failed to update todo")
      end
    else
      let date := calendar v in
      let (db', todo_id) :=
        add_todo db (user_id v) date title description
                 (optional due_time) priority in
      if negb (todo_id =? 0)
      then (db', showinfo "Success" "Todo added successfully")
      else (db', showerror "Error" "Failed to add todo").

End SaveTodo.

(** [TodoApp.search_todos], lines 857-893: the rows put in the tree, in
    the order the store returned them, and the message shown if any. *)
Definition search_todos (db : database) (v : view) (keyword : string)
    : Python.outcome (list Selected.row * option messagebox) :=
  if negb (truthy keyword) then
    Python.Return ([], Some (showinfo "Info" "Please enter a search keyword"))
  else
    Python.bind
      (search_todos db [Python.Int (user_id v); Python.Str keyword])
      (fun todos =>
         match todos with
         | Some (t :: l) => Python.Return (t :: l, None)
         | _ =>
             Python.Return
               ([], Some (showinfo "Search Results"
                                   "No todos found matching your search"))
         end).

(** The tag of a row in the list views (lines 635-639, 675-679 and
    885-889): overdue when the row is pending and dated before the current
    date, or dated on it with a due time that is a non-empty string before
    the current time; the status otherwise. *)
Definition overdue_condition (current_date current_time : string)
    (todo : Selected.row) : bool :=
  String.eqb (Selected.status todo) "pending"
  && (String.ltb (Selected.date todo) current_date
      || (String.eqb (Selected.date todo) current_date
          && match Selected.due_time todo with
             | Some due_time => truthy due_time && String.ltb due_time current_time
             | None => false
             end)).

(** One row of the tree: the values shown, with [due_time or ""], and the
    two tags. *)
Record item := {
  values : Z * string * string * string * string * string * string;
  tags : string * string
}.

Definition tree_insert (current_date current_time : string)
    (todo : Selected.row) : item :=
  let tag :=
    if overdue_condition current_date current_time todo
    then "overdue" else Selected.status todo in
  {| values := (Selected.todo_id todo, Selected.date todo, Selected.title todo,
                Selected.description todo, Selected.status todo,
                match Selected.due_time todo with
                | Some due_time => if truthy due_time then due_time else ""
                | None => ""
                end,
                Selected.priority todo);
     tags := (tag, Selected.priority todo) |}.

(** What a handler leaves on the screen: the rows of the tree, the figures
    of the statistics bar when the handler refreshed them, and the message
    box it showed. *)
Record screen := {
  tree : list item;
  stats_bar : option stats;
  message : option messagebox
}.

(** [load_todos_for_date], lines 619-646; the clock readings of the method
    and of [update_stats] are taken as one. *)
Definition load_todos_for_date (db : database) (v : view) (date : string)
    (current_date current_time : string) : screen :=
  let todos := get_todos_by_date db (user_id v) date in
  {| tree := map (tree_insert current_date current_time) todos;
     stats_bar := Some (get_todo_stats db (user_id v) current_date current_time);
     message := None |}.

(** [show_all_by_priority], lines 648-683; [shown_date] is
    [self.current_date], the date the daily view last showed. *)
Definition show_all_by_priority (db : database) (v : view) (shown_date : string)
    (current_date current_time : string) : screen :=
  match get_todos_by_priority db (user_id v) with
  | [] =>
      let daily := load_todos_for_date db v shown_date current_date current_time in
      {| tree := tree daily;
         stats_bar := stats_bar daily;
         message := Some (showinfo "Information" "No pending todos found") |}
  | todos =>
      {| tree := map (tree_insert current_date current_time) todos;
         stats_bar := None;
         message := None |}
  end.

(** The rows of a tree that carry the overdue tag. *)
Definition tagged_overdue (items : list item) : Z :=
  Z.of_nat (List.length
              (filter (fun i => String.eqb (fst (tags i)) "overdue") items)).

End TodoApp.

(** ** LoginFrame: the two handlers of the login card *)

Module LoginFrame.

(** [len(s)]: the code points of a string are the bytes of its UTF-8
    encoding that are not continuation bytes. *)
Definition is_continuation (c : ascii) : bool :=
  ((128 <=? N_of_ascii c) && (N_of_ascii c <? 192))%N.

Fixpoint len (s : string) : Z :=
  match s with
  | EmptyString => 0
  | String c s' => (if is_continuation c then 0 else 1) + len s'
  end.

Inductive login_result :=
| show_main_app (user_id : Z) (username : string)
| login_error (title message : string).

(** [login], lines 314-326.  [username] is the entry after [strip()],
    [password] the entry as typed. *)
Definition login (db : database) (username password : string) : login_result :=
  if negb (TodoApp.truthy username) || negb (TodoApp.truthy password) then
    login_error "Error" "Username and password are required."
  else
    match authenticate_user db username password with
    | Some user_id =>
        if negb (user_id =? 0) then show_main_app user_id username
        else login_error "Login Failed" "Invalid username or password."
    | None => login_error "Login Failed" "Invalid username or password."
    end.

(** [register], lines 328-345; [salt] is the draw of [os.urandom(32)] in
    [hash_password]. *)
Definition register (db : database) (username password : string)
    (salt : list byte) : database * TodoApp.messagebox :=
  if negb (TodoApp.truthy username) || negb (TodoApp.truthy password) then
    (db, TodoApp.showerror "Error" "Username and password are required.")
  else if len password <? 6 then
    (db, TodoApp.showerror "Error" "Password must be at least 6 characters.")
  else
    let (db', success) := register_user db username password salt in
    if success then
      (db', TodoApp.showinfo "Success"
                             "Registration successful! You can now login.")
    else (db', TodoApp.showerror "Error" "Username already exists.").

End LoginFrame.

(** ** Histories of the store

    The store starts empty and changes only through the methods above. *)

Inductive operation :=
| Register (username password : string) (salt : list byte)
| AddTodo (user_id : Z) (date title description : string)
          (due_time : option string) (priority : string)
| UpdateTodo (todo_id : Z) (title description : string)
             (due_time priority : option string)
| DeleteTodo (todo_id : Z)
| MarkDone (todo_id : Z) (now : string)
| MarkPending (todo_id : Z).

Definition execute (db : database) (o : operation) : database :=
  match o with
  | Register username password salt =>
      fst (register_user db username password salt)
  | AddTodo user_id date title description due_time priority =>
      fst (add_todo db user_id date title description due_time priority)
  | UpdateTodo todo_id title description due_time priority =>
      fst (update_todo db todo_id title description due_time priority)
  | DeleteTodo todo_id => fst (delete_todo db todo_id)
  | MarkDone todo_id now => fst (mark_todo_as_done db todo_id now)
  | MarkPending todo_id => fst (mark_todo_as_pending db todo_id)
  end.

Definition run_from (db : database) (ops : list operation) : database :=
  fold_left execute ops db.

Definition run (ops : list operation) : database :=
  run_from empty_database ops.

(** [os.urandom(32)] returns 32 bytes. *)
Definition well_formed (o : operation) : Prop :=
  match o with
  | Register _ _ salt => List.length salt = 32%nat
  | _ => True
  end.

(** The pair [(username, password)] was registered in the history [ops]
    with the random salt [salt], and the new row received [user_id]. *)
Definition registered (ops : list operation) (username password : string)
    (salt : list byte) (user_id : Z) : Prop :=
  exists before after,
    ops = before ++ Register username password salt :: after
    /\ snd (register_user (run before) username password salt) = true
    /\ user_id = users_seq (run before) + 1.

(** No registration of [username] is part of the history. *)
Definition unregistered (ops : list operation) (username : string) : Prop :=
  forall password salt, ~ In (Register username password salt) ops.

(** ** The properties, in the words of the specification *)

(** Text order: byte-wise, as SQLite and Python compare strings.  On zero
    padded [YYYY-MM-DD] dates and [HH:MM] times it is the order of the
    calendar and of the clock; on other texts it is not (9:5 is after
    10:00). *)
Definition text_lt (a b : string) : Prop := String.compare a b = Lt.

Definition text_le (a b : string) : Prop := String.compare a b <> Gt.

(** The priority ranks of the specification: high is 1, medium is 2 and low
    is 3.  Any other priority has no rank. *)
Definition specified_ranks : list (string * Z) :=
  [("high", 1); ("medium", 2); ("low", 3)].

Definition specified_rank (priority : string) : option Z :=
  option_map snd
    (find (fun entry => String.eqb (fst entry) priority) specified_ranks).

(** Priority rank ascending; a priority outside high, medium and low has no
    rank and comes first. *)
Definition rank_lt (a b : option Z) : Prop :=
  match a, b with
  | Some x, Some y => x < y
  | None, Some _ => True
  | _, None => False
  end.

(** A returned tuple shows a stored row: identifier, date, title,
    description, status, due time and priority are those of the row. *)
Definition shows (s : Selected.row) (r : Todos.row) : Prop :=
  Selected.todo_id s = Todos.id r
  /\ Selected.date s = Todos.date r
  /\ Selected.title s = Todos.title r
  /\ Selected.description s = Todos.description r
  /\ Selected.status s = Todos.status r
  /\ Selected.due_time s = Todos.due_time r
  /\ Selected.priority s = Todos.priority r.

(** The daily view: priority rank ascending (high, then medium, then low),
    then identifier descending. *)
Definition daily_view_order (a b : Selected.row) : Prop :=
  let ra := specified_rank (Selected.priority a) in
  let rb := specified_rank (Selected.priority b) in
  rank_lt ra rb \/ (ra = rb /\ Selected.todo_id b <= Selected.todo_id a).

Inductive null_placement :=
| NullsFirst
| NullsLast.

Definition due_time_le (np : null_placement) (a b : option string) : Prop :=
  match a, b with
  | Some x, Some y => text_le x y
  | None, None => True
  | None, Some _ => np = NullsFirst
  | Some _, None => np = NullsLast
  end.

(** The pending view: priority rank ascending (high, then medium, then
    low), then date ascending, then due time ascending with the NULL due
    times on the side [np]. *)
Definition pending_view_order (np : null_placement) (a b : Selected.row) : Prop :=
  let ra := specified_rank (Selected.priority a) in
  let rb := specified_rank (Selected.priority b) in
  rank_lt ra rb
  \/ (ra = rb
      /\ (text_lt (Selected.date a) (Selected.date b)
          \/ (Selected.date a = Selected.date b
              /\ due_time_le np (Selected.due_time a) (Selected.due_time b)))).

(** The rows of one user on one date, of one user with one status. *)
Definition on_date (user_id : Z) (date : string) (r : Todos.row) : bool :=
  (Todos.user_id r =? user_id) && String.eqb (Todos.date r) date.

Definition with_status (user_id : Z) (status : string) (r : Todos.row) : bool :=
  (Todos.user_id r =? user_id) && String.eqb (Todos.status r) status.

(** The decimal numbers a text holds, in order of appearance: 2024-01-10
    holds 2024, 1 and 10, and both 09:05 and 9:5 hold 9 and 5.  This is the
    day a date text names and the time of day a time text names. *)
Definition digit_value (c : ascii) : option Z :=
  let n := Z.of_N (N_of_ascii c) in
  if (48 <=? n) && (n <=? 57) then Some (n - 48) else None.

Fixpoint numbers_from (current : option Z) (s : string) : list Z :=
  match s with
  | EmptyString =>
      match current with
      | Some n => [n]
      | None => []
      end
  | String c s' =>
      match digit_value c, current with
      | Some d, Some n => numbers_from (Some (10 * n + d)) s'
      | Some d, None => numbers_from (Some d) s'
      | None, Some n => n :: numbers_from None s'
      | None, None => numbers_from None s'
      end
  end.

Definition numbers (s : string) : list Z := numbers_from None s.

(** Strictly before, field by field from the most significant one. *)
Fixpoint numbers_lt (a b : list Z) : Prop :=
  match a, b with
  | x :: a', y :: b' => x < y \/ (x = y /\ numbers_lt a' b')
  | _, _ => False
  end.

(** Strictly before in the calendar or on the clock, and the same day. *)
Definition before (a b : string) : Prop := numbers_lt (numbers a) (numbers b).

Definition same_day (a b : string) : Prop := numbers a = numbers b.

(** Overdue (section 3 of the specification): pending, and dated strictly
    before the current date, or dated on it with a due time strictly before
    the current time, in the order of the calendar and of the clock. *)
Definition past_due (current_date current_time : string) (r : Todos.row) : Prop :=
  Todos.status r = "pending"
  /\ (before (Todos.date r) current_date
      \/ (same_day (Todos.date r) current_date
          /\ exists t, Todos.due_time r = Some t /\ before t current_time)).

(** What the overdue query compares: the same condition in the byte-wise
    order of the texts, whatever the texts are. *)
Definition overdue_in_text_order (current_date current_time : string)
    (r : Todos.row) : Prop :=
  Todos.status r = "pending"
  /\ (text_lt (Todos.date r) current_date
      \/ (Todos.date r = current_date
          /\ exists t, Todos.due_time r = Some t /\ text_lt t current_time)).

Definition is_overdue_b (current_date current_time : string) (r : Todos.row) : bool :=
  String.eqb (Todos.status r) "pending"
  && (String.ltb (Todos.date r) current_date
      || (String.eqb (Todos.date r) current_date
          && match Todos.due_time r with
             | Some t => String.ltb t current_time
             | None => false
             end)).

(** The invariant of section 3: [completed_date] is set exactly on the
    completed todos. *)
Definition completion_consistent (r : Todos.row) : Prop :=
  Todos.completed_date r <> None <-> Todos.status r = "completed".

(** The row with identifier [todo_id], if the table has one. *)
Definition find_todo (db : database) (todo_id : Z) : option Todos.row :=
  find (fun r => Todos.id r =? todo_id) (todos db).

(** Not after, in the order of the sort keys. *)
Definition key_le {R K : Type} (key : R -> K) (cmp : K -> K -> comparison)
    (a b : R) : Prop :=
  cmp (key a) (key b) <> Gt.

(** A byte string read as one big-endian number. *)
Definition bytes_value (l : list byte) : Z :=
  fold_left (fun acc b => acc * 256 + Hashlib.byte_to_Z b) l 0.

(** The key [verify_password] derives from a password and a stored salt. *)
Definition derived_key (password : string) (salt : list byte) : list byte :=
  Hashlib.pbkdf2_hmac_sha256 (encode_utf8 password) salt pbkdf2_iterations.

(** The row [register_user] inserts for a registration. *)
Definition user_row (user_id : Z) (username password : string)
    (salt : list byte) : Users.row :=
  {| Users.id := user_id;
     Users.username := username;
     Users.password_hash := hash_password password salt |}.

(** ** Invariants of the tables *)

(** Identifiers of todos are distinct and were handed out by the sequence;
    a status is one of the two the code writes. *)
Definition todos_ok (db : database) : Prop :=
  0 <= todos_seq db
  /\ NoDup (map Todos.id (todos db))
  /\ Forall (fun r => 1 <= Todos.id r <= todos_seq db) (todos db)
  /\ Forall (fun r => Todos.status r = "pending"
                      \/ Todos.status r = "completed") (todos db).

Definition users_ok (db : database) : Prop :=
  0 <= users_seq db
  /\ NoDup (map Users.username (users db))
  /\ NoDup (map Users.id (users db))
  /\ Forall (fun u => 1 <= Users.id u <= users_seq db) (users db).

(** No todo has the empty string as its due time. *)
Definition due_times_nonempty (db : database) : Prop :=
  Forall (fun r => Todos.due_time r <> Some "") (todos db).

(** The rows of one user. *)
Definition owned_by (user_id : Z) (r : Todos.row) : bool :=
  Todos.user_id r =? user_id.

(** Two states show the same to a user: every daily view, the pending view
    and the statistics at every clock reading are equal. *)
Definition same_views (user_id : Z) (db db' : database) : Prop :=
  (forall date, get_todos_by_date db' user_id date
                = get_todos_by_date db user_id date)
  /\ get_todos_by_priority db' user_id = get_todos_by_priority db user_id
  /\ (forall current_date current_time,
        get_todo_stats db' user_id current_date current_time
        = get_todo_stats db user_id current_date current_time).

(** A WHERE clause that selects rows of one user only. *)
Definition scoped (user_id : Z) (w : Todos.row -> Sql.truth) : Prop :=
  forall r, Todos.user_id r <> user_id -> Sql.holds (w r) = false.

(** ** Example stores *)

(** Two pending todos of user 1 on one date with the same priority, the
    first with a due time and the second without. *)
Definition two_pending_todos : database :=
  run [AddTodo 1 "2024-01-10" "Call bank" "" (Some "09:00") "high";
       AddTodo 1 "2024-01-10" "Buy milk" "" None "high"].

(** One pending todo of user 1 dated 2024-01-09, and one dated 2024-01-10
    with a due time. *)
Definition yesterday_todo : database :=
  run [AddTodo 1 "2024-01-09" "Pay rent" "" None "medium"].

Definition today_todo (due_time : string) : database :=
  run [AddTodo 1 "2024-01-10" "Call bank" "" (Some due_time) "high"].

(** A salt as [os.urandom(32)] may return it, and the history in which
    alice registers with the password abc. *)
Definition example_salt : list byte := repeat x2a 32.

Definition alice_registered : list operation :=
  [Register "alice" "abc" example_salt].

(** The password abc followed by one NUL character. *)
Definition abc_nul : string :=
  String "a" (String "b" (String "c" (String "000" EmptyString))).

(** A view in add mode on 2024-01-10, and a form whose title is empty. *)
Definition add_mode_view : TodoApp.view :=
  {| TodoApp.user_id := 1;
     TodoApp.selected_todo_id := None;
     TodoApp.save_btn := "Add Todo";
     TodoApp.calendar := "2024-01-10" |}.

Definition untitled_form : TodoApp.form :=
  {| TodoApp.title_entry := "";
     TodoApp.description_text := "no title";
     TodoApp.due_time_entry := "";
     TodoApp.priority_var := "medium" |}.

(** A form with a title and a due time, and a view that edits todo 1 while
    the calendar shows another date. *)
Definition titled_form : TodoApp.form :=
  {| TodoApp.title_entry := "Water plants";
     TodoApp.description_text := "";
     TodoApp.due_time_entry := "18:30";
     TodoApp.priority_var := "low" |}.

Definition no_due_time_form : TodoApp.form :=
  {| TodoApp.title_entry := "Call the bank";
     TodoApp.description_text := "about the card";
     TodoApp.due_time_entry := "";
     TodoApp.priority_var := "low" |}.

Definition edit_mode_view : TodoApp.view :=
  {| TodoApp.user_id := 1;
     TodoApp.selected_todo_id := Some 1;
     TodoApp.save_btn := "Update Todo";
     TodoApp.calendar := "2024-02-01" |}.

(** The example of section 8 of the specification: a high and then a low
    todo on one date; and the same two added in the other order. *)
Definition milk_then_bank : database :=
  run [AddTodo 1 "2024-01-10" "Buy milk" "" None "high";
       AddTodo 1 "2024-01-10" "Call bank" "" None "low"].

Definition bank_then_milk : database :=
  run [AddTodo 1 "2024-01-10" "Call bank" "" None "low";
       AddTodo 1 "2024-01-10" "Buy milk" "" None "high"].

(** A form whose due time is five past nine written without padding, which
    [strptime] with the format [%H:%M] accepts, and the store after the
    form was saved on 2024-01-10. *)
Definition unpadded_form : TodoApp.form :=
  {| TodoApp.title_entry := "Stand-up";
     TodoApp.description_text := "";
     TodoApp.due_time_entry := "9:5";
     TodoApp.priority_var := "medium" |}.

Definition unpadded_todo : database :=
  run [AddTodo 1 "2024-01-10" "Stand-up" "" (Some "9:5") "medium"].

(** Ten o'clock on 2024-01-10. *)
Definition ten_o_clock : Clock.datetime :=
  {| Clock.year := 2024; Clock.month := 1; Clock.day := 10;
     Clock.hour := 10; Clock.minute := 0; Clock.second := 0 |}.

(** * Proofs *)

(** ** Comparison functions *)

Lemma ascii_compare_eq (a b : ascii) : Ascii.compare a b = Eq -> a = b.
Proof. apply Ascii.compare_eq_iff. Qed.

Lemma ascii_compare_refl (a : ascii) : Ascii.compare a a = Eq.
Proof. unfold Ascii.compare. apply N.compare_refl. Qed.

Lemma ascii_compare_lt_trans (a b c : ascii) :
  Ascii.compare a b = Lt -> Ascii.compare b c = Lt -> Ascii.compare a c = Lt.
Proof.
  unfold Ascii.compare. rewrite !N.compare_lt_iff. apply N.lt_trans.
Qed.

Lemma string_compare_refl (s : string) : String.compare s s = Eq.
Proof.
  induction s as [|a s IH]; simpl; [reflexivity|].
  now rewrite ascii_compare_refl.
Qed.

Lemma string_compare_eq (s t : string) : String.compare s t = Eq -> s = t.
Proof. apply String.compare_eq_iff. Qed.

Lemma string_compare_lt_trans (s t u : string) :
  String.compare s t = Lt -> String.compare t u = Lt -> String.compare s u = Lt.
Proof.
  revert t u. induction s as [|a s IH]; intros [|b t] [|c u]; simpl;
    try congruence.
  destruct (Ascii.compare a b) eqn:Hab; try discriminate;
    destruct (Ascii.compare b c) eqn:Hbc; try discriminate; intros H1 H2.
  - apply ascii_compare_eq in Hab, Hbc. subst.
    rewrite ascii_compare_refl. eauto.
  - apply ascii_compare_eq in Hab. subst. now rewrite Hbc.
  - apply ascii_compare_eq in Hbc. subst. now rewrite Hab.
  - now rewrite (ascii_compare_lt_trans _ _ _ Hab Hbc).
Qed.

#[global] Typeclasses Opaque Sql.nulls_first Sql.descending Sql.lex.

#[export] Instance Z_comparator : Comparator Z.compare.
Proof.
  split.
  - intros x y. apply Z.compare_eq.
  - apply Z.compare_refl.
  - intros x y. apply Z.compare_antisym.
  - intros x y z. rewrite !Z.compare_lt_iff. apply Z.lt_trans.
Qed.

#[export] Instance string_comparator : Comparator String.compare.
Proof.
  split.
  - apply string_compare_eq.
  - apply string_compare_refl.
  - intros x y. apply String.compare_antisym.
  - apply string_compare_lt_trans.
Qed.

Section Comparators.

Context {A B : Type} (ca : A -> A -> comparison) (cb : B -> B -> comparison).
Context `{!Comparator ca} `{!Comparator cb}.

#[export] Instance nulls_first_comparator : Comparator (Sql.nulls_first ca).
Proof.
  split.
  - intros [x|] [y|]; simpl; try discriminate; auto.
    intros H. f_equal. now apply cmp_eq.
  - intros [x|]; simpl; auto. apply cmp_refl.
  - intros [x|] [y|]; simpl; auto. apply cmp_flip.
  - intros [x|] [y|] [z|]; simpl; try discriminate; auto. apply cmp_lt_trans.
Qed.

#[export] Instance descending_comparator : Comparator (Sql.descending ca).
Proof.
  unfold Sql.descending. split.
  - intros x y H. symmetry. now apply cmp_eq.
  - intros x. apply cmp_refl.
  - intros x y. apply cmp_flip.
  - intros x y z H1 H2. eapply cmp_lt_trans; eauto.
Qed.

#[export] Instance lex_comparator : Comparator (Sql.lex ca cb).
Proof.
  unfold Sql.lex, Sql.then_by. split.
  - intros [x1 x2] [y1 y2]; simpl.
    destruct (ca x1 y1) eqn:H1; try discriminate. intros H2.
    apply cmp_eq in H1, H2. congruence.
  - intros [x1 x2]; simpl. now rewrite !cmp_refl.
  - intros [x1 x2] [y1 y2]; simpl.
    rewrite (cmp_flip (cmp := ca) x1 y1).
    destruct (ca x1 y1); simpl; auto. apply cmp_flip.
  - intros [x1 x2] [y1 y2] [z1 z2]; simpl.
    destruct (ca x1 y1) eqn:H1; try discriminate;
      destruct (ca y1 z1) eqn:H2; try discriminate; intros H3 H4.
    + apply cmp_eq in H1, H2. subst. rewrite cmp_refl.
      eapply cmp_lt_trans; eauto.
    + apply cmp_eq in H1. subst. now rewrite H2.
    + apply cmp_eq in H2. subst. now rewrite H1.
    + now rewrite (cmp_lt_trans _ _ _ H1 H2).
Qed.

End Comparators.


(** ** ORDER BY sorts, and keeps the rows *)

Section OrderBy.

Context {R K : Type} (key : R -> K) (cmp : K -> K -> comparison).
Context `{!Comparator cmp}.

Local Abbreviation kle := (key_le key cmp).
Local Abbreviation le := (fun a b : R => Sql.not_after (cmp (key a) (key b))).

Lemma not_after_true (a b : R) : le a b = true <-> kle a b.
Proof.
  unfold key_le, Sql.not_after.
  destruct (cmp (key a) (key b)); split; congruence.
Qed.

Lemma not_after_false (a b : R) : le a b = false -> kle b a.
Proof.
  unfold key_le, Sql.not_after. rewrite (cmp_flip (key a) (key b)).
  destruct (cmp (key a) (key b)); simpl; congruence.
Qed.

Lemma key_le_trans (a b c : R) : kle a b -> kle b c -> kle a c.
Proof.
  unfold key_le. intros H1 H2.
  destruct (cmp (key a) (key b)) eqn:Hab; [| |congruence];
    destruct (cmp (key b) (key c)) eqn:Hbc; try congruence.
  - apply cmp_eq in Hab. rewrite Hab, Hbc. congruence.
  - apply cmp_eq in Hab. rewrite Hab, Hbc. congruence.
  - apply cmp_eq in Hbc. rewrite <- Hbc, Hab. congruence.
  - rewrite (cmp_lt_trans _ _ _ Hab Hbc). congruence.
Qed.

Lemma insert_row_perm (x : R) (l : list R) :
  Permutation (Sql.insert_row le x l) (x :: l).
Proof.
  induction l as [|y l IH]; simpl; [reflexivity|].
  destruct (le x y); [reflexivity|].
  rewrite IH. apply perm_swap.
Qed.

Lemma insert_row_sorted (x : R) (l : list R) :
  StronglySorted kle l -> StronglySorted kle (Sql.insert_row le x l).
Proof.
  induction 1 as [|y l Hs IH Hy]; simpl.
  - repeat constructor.
  - destruct (le x y) eqn:Hxy.
    + apply not_after_true in Hxy.
      constructor; [now constructor|].
      constructor; [exact Hxy|].
      eapply Forall_impl; [|exact Hy].
      intros z Hz. eapply key_le_trans; eauto.
    + apply not_after_false in Hxy.
      constructor; [exact IH|].
      rewrite (insert_row_perm x l). now constructor.
Qed.

Lemma order_by_perm (rows : list R) :
  Permutation (Sql.order_by key cmp rows) rows.
Proof.
  unfold Sql.order_by. induction rows as [|x rows IH]; simpl; [reflexivity|].
  etransitivity; [apply insert_row_perm|]. now constructor.
Qed.

Lemma order_by_sorted (rows : list R) :
  StronglySorted kle (Sql.order_by key cmp rows).
Proof.
  unfold Sql.order_by. induction rows as [|x rows IH]; simpl.
  - constructor.
  - now apply insert_row_sorted.
Qed.

End OrderBy.

Lemma StronglySorted_map {X Y : Type} (f : X -> Y) (P : X -> X -> Prop)
    (Q : Y -> Y -> Prop) (l : list X) :
  (forall a b, P a b -> Q (f a) (f b)) ->
  StronglySorted P l -> StronglySorted Q (map f l).
Proof.
  intros HPQ. induction 1 as [|x l Hs IH Hx]; simpl; constructor; auto.
  apply Forall_map. eapply Forall_impl; [|exact Hx]. auto.
Qed.

(** ** The two ordered views *)

Lemma rank_order (a b : option Z) :
  Sql.nulls_first Z.compare a b = Lt -> rank_lt a b.
Proof.
  destruct a as [x|], b as [y|]; simpl; try discriminate; auto.
Qed.

(** The CASE expression of the two queries computes the ranks of the
    specification. *)
Lemma priority_rank_specified (priority : string) :
  priority_rank priority = specified_rank priority.
Proof.
  unfold priority_rank, specified_rank, specified_ranks.
  cbn [find fst snd option_map].
  rewrite (String.eqb_sym "high"), (String.eqb_sym "medium"),
    (String.eqb_sym "low").
  now destruct (String.eqb priority "high"), (String.eqb priority "medium"),
               (String.eqb priority "low").
Qed.

Lemma select_columns_shows (rows : list Todos.row) :
  Forall2 shows (map select_columns rows) rows.
Proof.
  induction rows as [|r rows IH]; cbn [map]; constructor; [|exact IH].
  unfold shows, select_columns; cbn. tauto.
Qed.

Lemma by_date_key_order (a b : Todos.row) :
  key_le by_date_key by_date_cmp a b ->
  daily_view_order (select_columns a) (select_columns b).
Proof.
  unfold key_le, by_date_cmp, by_date_key, daily_view_order, Sql.lex,
    Sql.then_by, Sql.descending; simpl.
  rewrite <- !priority_rank_specified.
  destruct (Sql.nulls_first Z.compare _ _) eqn:Hr; intros H.
  - right. split; [exact (cmp_eq (cmp := Sql.nulls_first Z.compare) _ _ Hr)|].
    now apply Z.compare_le_iff.
  - left. now apply rank_order.
  - congruence.
Qed.

Lemma by_priority_key_order (a b : Todos.row) :
  key_le by_priority_key by_priority_cmp a b ->
  pending_view_order NullsFirst (select_columns a) (select_columns b).
Proof.
  unfold key_le, by_priority_cmp, by_priority_key, pending_view_order, Sql.lex,
    Sql.then_by; simpl.
  rewrite <- !priority_rank_specified.
  destruct (Sql.nulls_first Z.compare _ _) eqn:Hr; intros H.
  - right. split; [exact (cmp_eq (cmp := Sql.nulls_first Z.compare) _ _ Hr)|].
    destruct (String.compare (Todos.date a) (Todos.date b)) eqn:Hd.
    + right. split; [now apply string_compare_eq|].
      unfold due_time_le, text_le.
      destruct (Todos.due_time a), (Todos.due_time b); simpl in H;
        auto; congruence.
    + now left.
    + congruence.
  - left. now apply rank_order.
  - congruence.
Qed.

Lemma by_date_where_holds (user_id : Z) (date : string) (r : Todos.row) :
  Sql.holds (by_date_where user_id date r) = on_date user_id date r.
Proof.
  unfold by_date_where, on_date; simpl.
  now destruct (Todos.user_id r =? user_id), (String.eqb (Todos.date r) date).
Qed.

Lemma by_priority_where_holds (user_id : Z) (r : Todos.row) :
  Sql.holds (by_priority_where user_id r) = with_status user_id "pending" r.
Proof.
  unfold by_priority_where, with_status; simpl.
  now destruct (Todos.user_id r =? user_id),
               (String.eqb (Todos.status r) "pending").
Qed.

Lemma select_where_filter {R : Type} (w : R -> Sql.truth) (f : R -> bool)
    (rows : list R) :
  (forall r, Sql.holds (w r) = f r) -> Sql.select_where w rows = filter f rows.
Proof. intros H. unfold Sql.select_where. now apply filter_ext. Qed.

(** C5. [get_todos_by_date] returns exactly the todos of the given user on
    the given date: the stored rows of that user and date, each once and in
    some order, are shown one by one by the returned tuples, field by field.
    The tuples are sorted by priority rank ascending, high 1 before medium 2
    before low 3, and on equal rank by identifier descending, the most
    recently created first. *)
Theorem get_todos_by_date_daily_view (db : database) (user_id : Z) (date : string) :
  (exists rows,
      Permutation rows (filter (on_date user_id date) (todos db))
      /\ Forall2 shows (get_todos_by_date db user_id date) rows)
  /\ StronglySorted daily_view_order (get_todos_by_date db user_id date).
Proof.
  unfold get_todos_by_date.
  rewrite (select_where_filter _ _ _ (by_date_where_holds user_id date)).
  split.
  - exists (Sql.order_by by_date_key by_date_cmp
              (filter (on_date user_id date) (todos db))).
    split; [apply order_by_perm|apply select_columns_shows].
  - eapply StronglySorted_map; [apply by_date_key_order|].
    apply order_by_sorted. unfold by_date_cmp. typeclasses eauto.
Qed.

(** The example of section 8: the high todo is listed before the low one,
    in whichever order the two were added; and of two todos of one priority
    the later one is listed first. *)
Example daily_view_example :
  map Selected.title (get_todos_by_date milk_then_bank 1 "2024-01-10")
  = ["Buy milk"; "Call bank"]
  /\ map Selected.title (get_todos_by_date bank_then_milk 1 "2024-01-10")
     = ["Buy milk"; "Call bank"]
  /\ map Selected.title (get_todos_by_date two_pending_todos 1 "2024-01-10")
     = ["Buy milk"; "Call bank"]
  /\ get_todos_by_date milk_then_bank 2 "2024-01-10" = []
  /\ get_todos_by_date milk_then_bank 1 "2024-01-11" = [].
Proof. repeat split; reflexivity. Qed.

(** The pending view in the order of the code: NULL due times first. *)
Lemma get_todos_by_priority_sorted (db : database) (user_id : Z) :
  Permutation (get_todos_by_priority db user_id)
              (map select_columns
                   (filter (with_status user_id "pending") (todos db)))
  /\ StronglySorted (pending_view_order NullsFirst)
                    (get_todos_by_priority db user_id).
Proof.
  unfold get_todos_by_priority.
  rewrite (select_where_filter _ _ _ (by_priority_where_holds user_id)).
  split.
  - apply Permutation_map, order_by_perm.
  - eapply StronglySorted_map; [apply by_priority_key_order|].
    apply order_by_sorted. unfold by_priority_cmp. typeclasses eauto.
Qed.



(** Due times are sorted as texts: of two pending todos of one priority
    and date, the one due at ten o'clock is listed before the one due at
    five past nine when the latter was typed without padding. *)
Example pending_view_unpadded_due_time :
  map Selected.title
    (get_todos_by_priority
       (run [AddTodo 1 "2024-01-10" "Stand-up" "" (Some "9:5") "high";
             AddTodo 1 "2024-01-10" "Call bank" "" (Some "10:00") "high"]) 1)
  = ["Call bank"; "Stand-up"]
  /\ before "9:5" "10:00".
Proof. split; [reflexivity|]. unfold before. left. reflexivity. Qed.

(** ** UPDATE and DELETE by identifier *)

Lemma id_where_holds (todo_id : Z) (r : Todos.row) :
  Sql.holds (id_where todo_id r) = (Todos.id r =? todo_id).
Proof. unfold id_where; simpl. now destruct (Todos.id r =? todo_id). Qed.

Lemma rowcount_find (todo_id : Z) (rows : list Todos.row) :
  (0 <? Sql.rowcount (id_where todo_id) rows)
  = match find (fun r => Todos.id r =? todo_id) rows with
    | Some _ => true
    | None => false
    end.
Proof.
  unfold Sql.rowcount, Sql.select_where.
  induction rows as [|r rows IH]; [reflexivity|].
  cbn [filter find]. rewrite id_where_holds.
  destruct (Todos.id r =? todo_id); [|exact IH].
  apply Z.ltb_lt. cbn [List.length]. lia.
Qed.

Lemma find_some_in (todo_id : Z) (rows : list Todos.row) :
  (exists r, In r rows /\ Todos.id r = todo_id)
  <-> exists r, find (fun r => Todos.id r =? todo_id) rows = Some r.
Proof.
  split.
  - intros [r [Hin Hid]].
    destruct (find _ rows) as [r'|] eqn:Hf; [now exists r'|].
    eapply find_none in Hf; [|exact Hin]. simpl in Hf. lia.
  - intros [r Hf]. apply find_some in Hf. exists r. split; [tauto|lia].
Qed.

Lemma matched_iff (todo_id : Z) (rows : list Todos.row) :
  (0 <? Sql.rowcount (id_where todo_id) rows) = true
  <-> exists r, In r rows /\ Todos.id r = todo_id.
Proof.
  rewrite rowcount_find, find_some_in.
  destruct (find _ rows) as [r|]; split; eauto; try discriminate.
  intros [r H]. discriminate.
Qed.

Lemma unmatched_iff (todo_id : Z) (rows : list Todos.row) :
  (0 <? Sql.rowcount (id_where todo_id) rows) = false
  <-> forall r, In r rows -> Todos.id r <> todo_id.
Proof.
  rewrite <- not_true_iff_false, matched_iff. split.
  - intros H r Hin Hid. apply H. eauto.
  - intros H [r [Hin Hid]]. eapply H; eauto.
Qed.

Lemma assign_frame (a : assignment) (r : Todos.row) :
  Todos.id (assign r a) = Todos.id r
  /\ Todos.user_id (assign r a) = Todos.user_id r
  /\ Todos.date (assign r a) = Todos.date r.
Proof. now destruct a. Qed.

Lemma assign_all_frame (set : list assignment) (r : Todos.row) :
  Todos.id (assign_all set r) = Todos.id r
  /\ Todos.user_id (assign_all set r) = Todos.user_id r
  /\ Todos.date (assign_all set r) = Todos.date r.
Proof.
  unfold assign_all. revert r. induction set as [|a set IH]; intros r; simpl.
  - auto.
  - destruct (IH (assign r a)) as [H1 [H2 H3]].
    destruct (assign_frame a r) as [G1 [G2 G3]]. repeat split; congruence.
Qed.

Lemma update_where_unmatched (todo_id : Z) (set : Todos.row -> Todos.row)
    (rows : list Todos.row) :
  (forall r, In r rows -> Todos.id r <> todo_id) ->
  Sql.update_where (id_where todo_id) set rows = rows.
Proof.
  intros H. unfold Sql.update_where. rewrite <- (map_id rows) at 2.
  apply map_ext_in. intros r Hin. rewrite id_where_holds.
  destruct (Z.eqb_spec (Todos.id r) todo_id) as [E|E]; [|reflexivity].
  now apply H in Hin.
Qed.

Lemma delete_where_unmatched (todo_id : Z) (rows : list Todos.row) :
  (forall r, In r rows -> Todos.id r <> todo_id) ->
  Sql.delete_where (id_where todo_id) rows = rows.
Proof.
  intros H. unfold Sql.delete_where.
  induction rows as [|r rows IH]; [reflexivity|].
  cbn [filter]. rewrite id_where_holds.
  destruct (Z.eqb_spec (Todos.id r) todo_id) as [E|E]; cbn [negb].
  - exfalso. apply (H r); [now left|exact E].
  - f_equal. apply IH. intros r' Hin. apply H. now right.
Qed.

Lemma nth_error_update_where (todo_id : Z) (set : Todos.row -> Todos.row)
    (rows : list Todos.row) (i : nat) (r : Todos.row) :
  nth_error rows i = Some r ->
  nth_error (Sql.update_where (id_where todo_id) set rows) i
  = Some (if Todos.id r =? todo_id then set r else r).
Proof.
  intros H. unfold Sql.update_where. rewrite nth_error_map, H.
  cbn [option_map]. now rewrite id_where_holds.
Qed.

Lemma find_update_where (todo_id : Z) (set : Todos.row -> Todos.row)
    (rows : list Todos.row) :
  (forall r, Todos.id (set r) = Todos.id r) ->
  find (fun r => Todos.id r =? todo_id)
       (Sql.update_where (id_where todo_id) set rows)
  = option_map set (find (fun r => Todos.id r =? todo_id) rows).
Proof.
  intros Hset. unfold Sql.update_where.
  induction rows as [|r rows IH]; [reflexivity|].
  cbn [map find]. rewrite id_where_holds.
  destruct (Z.eqb_spec (Todos.id r) todo_id) as [E|E].
  - rewrite Hset. rewrite (proj2 (Z.eqb_eq _ _) E). reflexivity.
  - rewrite (proj2 (Z.eqb_neq _ _) E). exact IH.
Qed.

Lemma find_delete_where (todo_id : Z) (rows : list Todos.row) :
  find (fun r => Todos.id r =? todo_id)
       (Sql.delete_where (id_where todo_id) rows) = None.
Proof.
  unfold Sql.delete_where.
  induction rows as [|r rows IH]; [reflexivity|].
  cbn [filter]. rewrite id_where_holds.
  destruct (Z.eqb_spec (Todos.id r) todo_id) as [E|E]; cbn [negb find];
    [exact IH|].
  now rewrite (proj2 (Z.eqb_neq _ _) E).
Qed.

Lemma with_todos_same (db : database) : with_todos db (todos db) = db.
Proof. now destruct db. Qed.

Lemma update_todo_query_effect (title description : string)
    (due_time priority : option string) (r : Todos.row) :
  let r' := assign_all (update_todo_query title description due_time priority) r in
  Todos.title r' = title
  /\ Todos.description r' = description
  /\ Todos.due_time r'
     = match due_time with Some v => Some v | None => Todos.due_time r end
  /\ Todos.priority r'
     = match priority with Some v => v | None => Todos.priority r end
  /\ Todos.status r' = Todos.status r
  /\ Todos.completed_date r' = Todos.completed_date r.
Proof. destruct due_time, priority; simpl; repeat split. Qed.

(** C7. [update_todo] assigns [title] and [description], and [due_time]
    and [priority] when they are not None; it leaves the identifier, owner,
    date, status and completed date of every row, and every other row, as
    they were; it returns true exactly when a row has the identifier, and on
    false the store is unchanged. *)
Theorem update_todo_partial_update (db : database) (todo_id : Z)
    (title description : string) (due_time priority : option string) :
  let U := update_todo db todo_id title description due_time priority in
  (snd U = true <-> exists r, In r (todos db) /\ Todos.id r = todo_id)
  /\ users (fst U) = users db
  /\ users_seq (fst U) = users_seq db
  /\ todos_seq (fst U) = todos_seq db
  /\ List.length (todos (fst U)) = List.length (todos db)
  /\ (forall i r, nth_error (todos db) i = Some r ->
        exists r', nth_error (todos (fst U)) i = Some r'
          /\ Todos.id r' = Todos.id r
          /\ Todos.user_id r' = Todos.user_id r
          /\ Todos.date r' = Todos.date r
          /\ Todos.status r' = Todos.status r
          /\ Todos.completed_date r' = Todos.completed_date r
          /\ (Todos.id r <> todo_id -> r' = r)
          /\ (Todos.id r = todo_id ->
                Todos.title r' = title
                /\ Todos.description r' = description
                /\ Todos.due_time r'
                   = match due_time with
                     | Some v => Some v
                     | None => Todos.due_time r
                     end
                /\ Todos.priority r'
                   = match priority with
                     | Some v => v
                     | None => Todos.priority r
                     end))
  /\ (snd U = false -> fst U = db).
Proof.
  unfold update_todo; simpl.
  split; [apply matched_iff|].
  repeat (split; [reflexivity|]).
  split; [unfold Sql.update_where; apply length_map|].
  split.
  - intros i r Hi.
    rewrite (nth_error_update_where todo_id _ _ i r Hi).
    eexists. split; [reflexivity|].
    destruct (update_todo_query_effect title description due_time priority r)
      as [E1 [E2 [E3 [E4 [E5 E6]]]]].
    destruct (assign_all_frame
                (update_todo_query title description due_time priority) r)
      as [F1 [F2 F3]].
    destruct (Z.eqb_spec (Todos.id r) todo_id) as [E|E].
    + do 5 (split; [assumption|]).
      split; [intros N; now elim N|].
      intros _. now repeat split.
    + do 5 (split; [reflexivity|]).
      split; [reflexivity|]. intros N. now elim E.
  - intros H. pose proof (proj1 (unmatched_iff _ _) H) as Hu.
    rewrite update_where_unmatched by exact Hu. apply with_todos_same.
Qed.

(** ** Completion toggles *)

Lemma find_todo_matched (db : database) (todo_id : Z) (r : Todos.row) :
  find_todo db todo_id = Some r ->
  (0 <? Sql.rowcount (id_where todo_id) (todos db)) = true.
Proof. unfold find_todo. intros H. now rewrite rowcount_find, H. Qed.

Lemma find_todo_unmatched (db : database) (todo_id : Z) :
  find_todo db todo_id = None ->
  forall r, In r (todos db) -> Todos.id r <> todo_id.
Proof.
  unfold find_todo. intros H. apply unmatched_iff. now rewrite rowcount_find, H.
Qed.

Lemma find_todo_updated (db : database) (todo_id : Z) (set : list assignment)
    (r : Todos.row) :
  find_todo db todo_id = Some r ->
  find_todo (with_todos db (Sql.update_where (id_where todo_id)
                                             (assign_all set) (todos db)))
            todo_id
  = Some (assign_all set r).
Proof.
  unfold find_todo; simpl. intros H.
  rewrite find_update_where, H; [reflexivity|].
  intros r0. apply assign_all_frame.
Qed.

Lemma mark_todo_as_done_found (db : database) (todo_id : Z) (now : string)
    (r : Todos.row) :
  find_todo db todo_id = Some r ->
  snd (mark_todo_as_done db todo_id now) = true
  /\ exists r', find_todo (fst (mark_todo_as_done db todo_id now)) todo_id = Some r'
       /\ Todos.status r' = "completed"
       /\ Todos.completed_date r' = Some now
       /\ Todos.user_id r' = Todos.user_id r
       /\ Todos.title r' = Todos.title r.
Proof.
  intros H. unfold mark_todo_as_done; simpl. split.
  - eapply find_todo_matched; eauto.
  - rewrite (find_todo_updated _ _ _ _ H).
    eexists. split; [reflexivity|]. now repeat split.
Qed.

Lemma mark_todo_as_pending_found (db : database) (todo_id : Z) (r : Todos.row) :
  find_todo db todo_id = Some r ->
  snd (mark_todo_as_pending db todo_id) = true
  /\ exists r', find_todo (fst (mark_todo_as_pending db todo_id)) todo_id = Some r'
       /\ Todos.status r' = "pending"
       /\ Todos.completed_date r' = None
       /\ Todos.user_id r' = Todos.user_id r
       /\ Todos.title r' = Todos.title r.
Proof.
  intros H. unfold mark_todo_as_pending; simpl. split.
  - eapply find_todo_matched; eauto.
  - rewrite (find_todo_updated _ _ _ _ H).
    eexists. split; [reflexivity|]. now repeat split.
Qed.

(** C8. On an existing todo, [mark_todo_as_done] followed by
    [mark_todo_as_pending] returns true twice and leaves the todo pending
    with a NULL completed date; [mark_todo_as_done] twice returns true
    twice, and the completed date is the timestamp of the latest call.  On
    an identifier no row has, both return false and change nothing. *)
Theorem mark_done_mark_pending (db : database) (todo_id : Z) (now1 now2 : string) :
  let D1 := mark_todo_as_done db todo_id now1 in
  let P := mark_todo_as_pending (fst D1) todo_id in
  let D2 := mark_todo_as_done (fst D1) todo_id now2 in
  (forall r, find_todo db todo_id = Some r ->
     snd D1 = true /\ snd P = true /\ snd D2 = true
     /\ (exists r1, find_todo (fst D1) todo_id = Some r1
           /\ Todos.status r1 = "completed"
           /\ Todos.completed_date r1 = Some now1)
     /\ (exists r2, find_todo (fst P) todo_id = Some r2
           /\ Todos.status r2 = "pending"
           /\ Todos.completed_date r2 = None)
     /\ (exists r3, find_todo (fst D2) todo_id = Some r3
           /\ Todos.status r3 = "completed"
           /\ Todos.completed_date r3 = Some now2))
  /\ (find_todo db todo_id = None ->
        mark_todo_as_done db todo_id now1 = (db, false)
        /\ mark_todo_as_pending db todo_id = (db, false)).
Proof.
  cbv zeta. split.
  - intros r Hr.
    destruct (mark_todo_as_done_found db todo_id now1 r Hr)
      as [Hd1 [r1 [Hf1 [Hs1 [Hc1 _]]]]].
    destruct (mark_todo_as_pending_found _ todo_id r1 Hf1)
      as [Hp [r2 [Hf2 [Hs2 [Hc2 _]]]]].
    destruct (mark_todo_as_done_found _ todo_id now2 r1 Hf1)
      as [Hd2 [r3 [Hf3 [Hs3 [Hc3 _]]]]].
    repeat split; eauto.
  - intros Hn. pose proof (find_todo_unmatched db todo_id Hn) as Hu.
    unfold mark_todo_as_done, mark_todo_as_pending.
    rewrite !update_where_unmatched by exact Hu.
    rewrite with_todos_same.
    now rewrite (proj2 (unmatched_iff todo_id (todos db)) Hu).
Qed.

Lemma mark_done_mark_pending_witness :
  exists r2,
    find_todo (fst (mark_todo_as_pending
                      (fst (mark_todo_as_done two_pending_todos 1
                                              "2024-01-10 08:00:00")) 1)) 1
    = Some r2
    /\ Todos.status r2 = "pending"
    /\ Todos.completed_date r2 = None.
Proof.
  refine (proj1 (proj2 (proj2 (proj2 (proj2
    (proj1 (mark_done_mark_pending two_pending_todos 1 "2024-01-10 08:00:00"
                                   "2024-01-10 09:30:00")
           {| Todos.id := 1; Todos.user_id := 1; Todos.date := "2024-01-10";
              Todos.title := "Call bank"; Todos.description := "";
              Todos.status := "pending"; Todos.due_time := Some "09:00";
              Todos.completed_date := None; Todos.priority := "high" |}
           _)))))).
  reflexivity.
Defined.

(** C10. The four mutating methods take the identifier alone: on the
    identifier of an existing todo, whichever user owns it, each returns true
    and has its effect on that todo. *)
Theorem mutations_ignore_owner (db : database) (todo_id : Z) (r : Todos.row)
    (title description now : string) (due_time priority : option string) :
  find_todo db todo_id = Some r ->
  (snd (update_todo db todo_id title description due_time priority) = true
   /\ exists r',
        find_todo (fst (update_todo db todo_id title description
                                    due_time priority)) todo_id = Some r'
        /\ Todos.user_id r' = Todos.user_id r
        /\ Todos.title r' = title
        /\ Todos.description r' = description
        /\ Todos.due_time r'
           = match due_time with Some v => Some v | None => Todos.due_time r end
        /\ Todos.priority r'
           = match priority with Some v => v | None => Todos.priority r end)
  /\ (snd (delete_todo db todo_id) = true
      /\ find_todo (fst (delete_todo db todo_id)) todo_id = None)
  /\ (snd (mark_todo_as_done db todo_id now) = true
      /\ exists r',
           find_todo (fst (mark_todo_as_done db todo_id now)) todo_id = Some r'
           /\ Todos.user_id r' = Todos.user_id r
           /\ Todos.status r' = "completed"
           /\ Todos.completed_date r' = Some now)
  /\ (snd (mark_todo_as_pending db todo_id) = true
      /\ exists r',
           find_todo (fst (mark_todo_as_pending db todo_id)) todo_id = Some r'
           /\ Todos.user_id r' = Todos.user_id r
           /\ Todos.status r' = "pending"
           /\ Todos.completed_date r' = None).
Proof.
  intros Hr. repeat apply conj.
  - unfold update_todo; simpl. eapply find_todo_matched; eauto.
  - unfold update_todo; simpl.
    rewrite (find_todo_updated _ _ _ _ Hr).
    eexists. split; [reflexivity|].
    destruct (update_todo_query_effect title description due_time priority r)
      as [E1 [E2 [E3 [E4 _]]]].
    destruct (assign_all_frame
                (update_todo_query title description due_time priority) r)
      as [_ [F2 _]].
    auto.
  - unfold delete_todo; simpl. eapply find_todo_matched; eauto.
  - unfold delete_todo, find_todo; simpl. apply find_delete_where.
  - apply (mark_todo_as_done_found db todo_id now r Hr).
  - destruct (mark_todo_as_done_found db todo_id now r Hr)
      as [_ [r' [H1 [H2 [H3 [H4 _]]]]]]. eauto.
  - apply (mark_todo_as_pending_found db todo_id r Hr).
  - destruct (mark_todo_as_pending_found db todo_id r Hr)
      as [_ [r' [H1 [H2 [H3 [H4 _]]]]]]. eauto.
Qed.

Lemma mutations_ignore_owner_witness :
  snd (delete_todo two_pending_todos 2) = true
  /\ find_todo (fst (delete_todo two_pending_todos 2)) 2 = None.
Proof.
  refine (proj1 (proj2
    (mutations_ignore_owner two_pending_todos 2
       {| Todos.id := 2; Todos.user_id := 1; Todos.date := "2024-01-10";
          Todos.title := "Buy milk"; Todos.description := "";
          Todos.status := "pending"; Todos.due_time := None;
          Todos.completed_date := None; Todos.priority := "high" |}
       "Buy oat milk" "" "2024-01-10 08:00:00" None None _))).
  reflexivity.
Defined.

(** ** The completion invariant *)

Lemma update_where_Forall {R : Type} (P : R -> Prop) (w : R -> Sql.truth)
    (set : R -> R) (rows : list R) :
  (forall r, P r -> P (set r)) ->
  Forall P rows -> Forall P (Sql.update_where w set rows).
Proof.
  intros Hset H. unfold Sql.update_where. apply Forall_map.
  eapply Forall_impl; [|exact H].
  intros r Hr. destruct (Sql.holds (w r)); auto.
Qed.

Lemma delete_where_Forall {R : Type} (P : R -> Prop) (w : R -> Sql.truth)
    (rows : list R) :
  Forall P rows -> Forall P (Sql.delete_where w rows).
Proof.
  intros H. unfold Sql.delete_where. apply Forall_forall. intros r Hin.
  apply filter_In in Hin. destruct Hin as [Hin _].
  revert r Hin. now apply Forall_forall.
Qed.

Lemma register_user_todos (db : database) (username password : string)
    (salt : list byte) :
  todos (fst (register_user db username password salt)) = todos db.
Proof.
  unfold register_user.
  now destruct (Sql.select_where (username_where username) (users db)).
Qed.

Lemma execute_consistent (db : database) (o : operation) :
  Forall completion_consistent (todos db) ->
  Forall completion_consistent (todos (execute db o)).
Proof.
  intros H. destruct o; simpl.
  - now rewrite register_user_todos.
  - apply Forall_app. split; [exact H|].
    constructor; [|constructor].
    unfold completion_consistent; simpl. split; [congruence|discriminate].
  - apply update_where_Forall; [|exact H].
    intros r Hr. unfold completion_consistent in *.
    destruct (update_todo_query_effect title description due_time priority r)
      as [_ [_ [_ [_ [E5 E6]]]]].
    now rewrite E5, E6.
  - now apply delete_where_Forall.
  - apply update_where_Forall; [|exact H].
    intros r _. unfold completion_consistent; simpl.
    split; [reflexivity|discriminate].
  - apply update_where_Forall; [|exact H].
    intros r _. unfold completion_consistent; simpl.
    split; [congruence|discriminate].
Qed.

Lemma run_from_consistent (ops : list operation) (db : database) :
  Forall completion_consistent (todos db) ->
  Forall completion_consistent (todos (run_from db ops)).
Proof.
  unfold run_from. revert db. induction ops as [|o ops IH]; intros db H; simpl.
  - exact H.
  - apply IH. now apply execute_consistent.
Qed.

(** C9. In every state the store reaches from the empty one, every todo has
    a completed date exactly when its status is completed.  Every method
    preserves this; in particular [add_todo] appends a pending row with a
    NULL completed date. *)
Theorem completed_date_iff_completed :
  (forall ops, Forall completion_consistent (todos (run ops)))
  /\ (forall db o,
        Forall completion_consistent (todos db) ->
        Forall completion_consistent (todos (execute db o)))
  /\ (forall db user_id date title description due_time priority,
        exists r,
          todos (fst (add_todo db user_id date title description
                               due_time priority)) = todos db ++ [r]
          /\ Todos.status r = "pending"
          /\ Todos.completed_date r = None).
Proof.
  split; [|split].
  - intros ops. apply run_from_consistent. constructor.
  - apply execute_consistent.
  - intros. eexists. split; [reflexivity|]. now simpl.
Qed.

(** ** Statistics *)

Lemma string_ltb_lt (a b : string) : String.ltb a b = true <-> text_lt a b.
Proof.
  unfold String.ltb, text_lt.
  destruct (String.compare a b); split; congruence.
Qed.

Lemma is_overdue_reflect (current_date current_time : string) (r : Todos.row) :
  is_overdue_b current_date current_time r = true
  <-> overdue_in_text_order current_date current_time r.
Proof.
  unfold is_overdue_b, overdue_in_text_order.
  rewrite andb_true_iff, orb_true_iff, andb_true_iff, !String.eqb_eq,
    string_ltb_lt.
  split.
  - intros [Hs [Hd | [Hd Ht]]]; split; auto. right. split; [exact Hd|].
    destruct (Todos.due_time r) as [t|]; [|discriminate].
    exists t. split; [reflexivity|]. now apply string_ltb_lt.
  - intros [Hs [Hd | [Hd [t [Ht Hlt]]]]]; split; auto. right.
    split; [exact Hd|]. rewrite Ht. now apply string_ltb_lt.
Qed.

Lemma overdue_where_holds (user_id : Z) (current_date current_time : string)
    (r : Todos.row) :
  Sql.holds (overdue_where user_id current_date current_time r)
  = (Todos.user_id r =? user_id) && is_overdue_b current_date current_time r.
Proof.
  unfold overdue_where, is_overdue_b; simpl.
  destruct (Todos.user_id r =? user_id),
           (String.eqb (Todos.status r) "pending"),
           (String.ltb (Todos.date r) current_date),
           (String.eqb (Todos.date r) current_date),
           (Todos.due_time r) as [t|]; simpl; try reflexivity;
    now destruct (String.ltb t current_time).
Qed.

(** ** Empty titles *)

(** C3, as stated, fails: [add_todo] with an empty title raises nothing,
    inserts the row and returns its identifier. *)
Lemma add_todo_empty_title_counterexample :
  add_todo empty_database 1 "2024-01-10" "" "" None "medium"
  = ({| users := []; users_seq := 0;
        todos := [ {| Todos.id := 1; Todos.user_id := 1;
                      Todos.date := "2024-01-10"; Todos.title := "";
                      Todos.description := ""; Todos.status := "pending";
                      Todos.due_time := None; Todos.completed_date := None;
                      Todos.priority := "medium" |} ];
        todos_seq := 1 |}, 1)
  /\ todos (fst (add_todo empty_database 1 "2024-01-10" "" "" None "medium"))
     <> todos empty_database.
Proof. split; [reflexivity|discriminate]. Qed.

(** C3, as amended.  The store does not validate the title: [add_todo]
    with an empty title appends the row and returns its identifier.  The
    check is the caller's: [save_todo] on a form whose title is empty shows
    an error and leaves the store as it was, so no row is inserted. *)
Theorem empty_title_rejected_by_save_todo
    (validate_time_format : string -> bool) (db : database)
    (v : TodoApp.view) (f : TodoApp.form) (current_date current_time : string)
    (user_id : Z) (date description : string) (due_time : option string)
    (priority : string) :
  TodoApp.title_entry f = "" ->
  (fst (TodoApp.save_todo validate_time_format db v f current_date current_time)
   = db
   /\ (snd (TodoApp.save_todo validate_time_format db v f
                              current_date current_time)
       = TodoApp.showerror "Error" "Title is required"
       \/ snd (TodoApp.save_todo validate_time_format db v f
                                 current_date current_time)
          = TodoApp.showerror "Error" "Due time must be in HH:MM format"))
  /\ (exists r,
        add_todo db user_id date "" description due_time priority
        = ({| users := users db; users_seq := users_seq db;
              todos := todos db ++ [r]; todos_seq := todos_seq db + 1 |},
           todos_seq db + 1)
        /\ Todos.title r = ""
        /\ Todos.id r = todos_seq db + 1).
Proof.
  intros Ht. split.
  - unfold TodoApp.save_todo. rewrite Ht.
    destruct (TodoApp.truthy (TodoApp.due_time_entry f)
              && negb (validate_time_format (TodoApp.due_time_entry f)));
      simpl; auto.
  - eexists. split; [reflexivity|]. now simpl.
Qed.

Lemma empty_title_rejected_by_save_todo_witness :
  fst (TodoApp.save_todo (fun _ => true) two_pending_todos add_mode_view
                         untitled_form "2024-01-10" "08:00")
  = two_pending_todos.
Proof.
  refine (proj1 (proj1
    (empty_title_rejected_by_save_todo (fun _ => true) two_pending_todos
       add_mode_view untitled_form "2024-01-10" "08:00"
       1 "2024-01-10" "" None "medium" _))).
  reflexivity.
Defined.

(** ** Search *)

(** C2.  The store's [search_todos] accepts no argument besides [self]:
    called as the view calls it, with a user identifier and a keyword, it
    raises TypeError; with any arguments it raises and returns no rows.  The
    view's handler therefore raises on every non-empty keyword. *)
Theorem search_todos_raises (db : database) (user_id : Z) (keyword : string) :
  search_todos db [Python.Int user_id; Python.Str keyword]
  = Python.Raise Python.TypeError
  /\ (forall args, exists e, search_todos db args = Python.Raise e)
  /\ (forall v, TodoApp.truthy keyword = true ->
                TodoApp.search_todos db v keyword
                = Python.Raise Python.TypeError).
Proof.
  split; [reflexivity|]. split.
  - intros [|a args]; simpl; eauto.
  - intros v Hk. unfold TodoApp.search_todos. now rewrite Hk.
Qed.

(** ** The key derivation *)

(** The derivation runs 100000 rounds of HMAC and is never evaluated in the
    proofs; they use its equations only. *)
#[global] Opaque Hashlib.pbkdf2_padded.

Lemma hmac_key_trailing_zero (key : list byte) :
  (List.length key < Hashlib.block_size)%nat ->
  Hashlib.hmac_key (key ++ [x00]) = Hashlib.hmac_key key.
Proof.
  unfold Hashlib.hmac_key, Hashlib.block_size. intros Hlen.
  rewrite length_app; simpl List.length.
  replace (64 <? List.length key + 1)%nat with false
    by (symmetry; apply Nat.ltb_ge; lia).
  replace (64 <? List.length key)%nat with false
    by (symmetry; apply Nat.ltb_ge; lia).
  rewrite length_app; simpl List.length.
  replace (64 - List.length key)%nat with (S (64 - (List.length key + 1)))
    by lia.
  simpl repeat. now rewrite <- app_assoc.
Qed.

Lemma pbkdf2_trailing_zero (password salt : list byte) (iterations : N) :
  (List.length password < Hashlib.block_size)%nat ->
  Hashlib.pbkdf2_hmac_sha256 (password ++ [x00]) salt iterations
  = Hashlib.pbkdf2_hmac_sha256 password salt iterations.
Proof.
  intros H. unfold Hashlib.pbkdf2_hmac_sha256.
  now rewrite hmac_key_trailing_zero.
Qed.

Lemma bytes_eqb_eq (a b : list byte) : bytes_eqb a b = true <-> a = b.
Proof.
  revert b. induction a as [|x a IH]; intros [|y b]; simpl;
    try (split; congruence).
  rewrite andb_true_iff, IH. split.
  - intros [H1 H2]. apply byte_dec_bl in H1. congruence.
  - intros H. injection H as -> ->. split; [now apply byte_dec_lb|reflexivity].
Qed.

Lemma bytes_eqb_refl (a : list byte) : bytes_eqb a a = true.
Proof. now apply bytes_eqb_eq. Qed.

Lemma verify_password_hash_password (password provided : string)
    (salt : list byte) :
  List.length salt = 32%nat ->
  verify_password (hash_password password salt) provided
  = bytes_eqb (derived_key provided salt) (derived_key password salt).
Proof.
  intros Hlen. unfold verify_password, hash_password, derived_key.
  assert (F : forall key : list byte, firstn 32 (salt ++ key) = salt).
  { intros key. rewrite <- Hlen.
    rewrite firstn_app, Nat.sub_diag, firstn_all. apply app_nil_r. }
  assert (S : forall key : list byte, skipn 32 (salt ++ key) = key).
  { intros key. rewrite <- Hlen.
    now rewrite skipn_app, Nat.sub_diag, skipn_all. }
  now rewrite F, S.
Qed.

(** ** The users table along a history *)

Lemma username_where_holds (username : string) (u : Users.row) :
  Sql.holds (username_where username u) = String.eqb (Users.username u) username.
Proof.
  unfold username_where; simpl.
  now destruct (String.eqb (Users.username u) username).
Qed.

Lemma lookup_none (username : string) (l : list Users.row) :
  Sql.select_where (username_where username) l = []
  <-> ~ In username (map Users.username l).
Proof.
  unfold Sql.select_where. induction l as [|u l IH].
  - simpl. tauto.
  - cbn [filter map In]. rewrite username_where_holds.
    destruct (String.eqb_spec (Users.username u) username) as [E|E].
    + split; [discriminate|]. intros H. elim H. now left.
    + rewrite IH. tauto.
Qed.

Lemma lookup_unique (l : list Users.row) (r : Users.row) :
  NoDup (map Users.username l) -> In r l ->
  Sql.select_where (username_where (Users.username r)) l = [r].
Proof.
  unfold Sql.select_where. induction l as [|u l IH]; [simpl; tauto|].
  cbn [filter map In].
  intros Hnd [E|Hin]; inversion Hnd as [|x xs Hx Hxs]; subst.
  - rewrite username_where_holds, String.eqb_refl. f_equal.
    now apply lookup_none.
  - rewrite username_where_holds.
    destruct (String.eqb_spec (Users.username u) (Users.username r)) as [E|E].
    + elim Hx. rewrite E. now apply in_map.
    + now apply IH.
Qed.

Lemma register_user_cases (db : database) (username password : string)
    (salt : list byte) :
  (~ In username (map Users.username (users db))
   /\ snd (register_user db username password salt) = true
   /\ users (fst (register_user db username password salt))
      = users db ++ [user_row (users_seq db + 1) username password salt])
  \/ (In username (map Users.username (users db))
      /\ register_user db username password salt = (db, false)).
Proof.
  unfold register_user.
  destruct (Sql.select_where (username_where username) (users db)) eqn:E.
  - left. apply lookup_none in E. now repeat split.
  - right. split; [|reflexivity].
    destruct (in_dec string_dec username (map Users.username (users db)))
      as [H|H]; [exact H|].
    apply lookup_none in H. congruence.
Qed.

Lemma execute_users (db : database) (o : operation) :
  match o with
  | Register username password salt =>
      users (execute db o)
      = users (fst (register_user db username password salt))
  | _ => users (execute db o) = users db
  end.
Proof. now destruct o. Qed.

Lemma execute_keeps_users (db : database) (o : operation) (row : Users.row) :
  In row (users db) -> In row (users (execute db o)).
Proof.
  intros H. destruct o; simpl; auto.
  destruct (register_user_cases db username password salt)
    as [[_ [_ E]] | [_ E]]; rewrite E; simpl; auto.
  apply in_or_app. now left.
Qed.

Lemma run_from_keeps_users (ops : list operation) (db : database)
    (row : Users.row) :
  In row (users db) -> In row (users (run_from db ops)).
Proof.
  unfold run_from. revert db. induction ops as [|o ops IH]; intros db H; simpl.
  - exact H.
  - apply IH. now apply execute_keeps_users.
Qed.

Lemma run_app (a b : list operation) : run (a ++ b) = run_from (run a) b.
Proof. unfold run, run_from. apply fold_left_app. Qed.

Lemma run_snoc (ops : list operation) (o : operation) :
  run (ops ++ [o]) = execute (run ops) o.
Proof. now rewrite run_app. Qed.

Lemma users_unique (ops : list operation) :
  NoDup (map Users.username (users (run ops))).
Proof.
  induction ops as [|o ops IH] using rev_ind; [constructor|].
  rewrite run_snoc. pose proof (execute_users (run ops) o) as E.
  destruct o; try (rewrite E; exact IH).
  rewrite E.
  destruct (register_user_cases (run ops) username password salt)
    as [[Hn [_ Eu]] | [_ Eu]]; rewrite Eu; simpl; [|exact IH].
  rewrite map_app; simpl.
  apply NoDup_app; [exact IH|repeat constructor; simpl; tauto|].
  intros x Hx [<-|[]]. contradiction.
Qed.

Lemma users_provenance (ops : list operation) (row : Users.row) :
  In row (users (run ops)) ->
  exists password salt, In (Register (Users.username row) password salt) ops.
Proof.
  induction ops as [|o ops IH] using rev_ind; [intros []|].
  rewrite run_snoc. pose proof (execute_users (run ops) o) as E.
  assert (Hold : In row (users (run ops)) ->
                 exists password salt,
                   In (Register (Users.username row) password salt) (ops ++ [o])).
  { intros H. destruct (IH H) as [p [s Hin]]. exists p, s.
    apply in_or_app. now left. }
  destruct o; try (rewrite E; exact Hold).
  rewrite E.
  destruct (register_user_cases (run ops) username password salt)
    as [[_ [_ Eu]] | [_ Eu]]; rewrite Eu; simpl; [|exact Hold].
  intros H. apply in_app_or in H. destruct H as [H|[<-|[]]]; [auto|].
  exists password, salt. apply in_or_app. right. now left.
Qed.

Lemma registered_row (ops : list operation) (username password : string)
    (salt : list byte) (user_id : Z) :
  registered ops username password salt user_id ->
  In (user_row user_id username password salt) (users (run ops)).
Proof.
  intros [before [after [E [Hs Hid]]]]. subst ops.
  rewrite run_app. unfold run_from. simpl fold_left.
  apply (run_from_keeps_users after). simpl.
  destruct (register_user_cases (run before) username password salt)
    as [[_ [_ Eu]] | [_ Eu]].
  - rewrite Eu, Hid. apply in_or_app. right. now left.
  - rewrite Eu in Hs. discriminate.
Qed.

Lemma registered_salt (ops : list operation) (username password : string)
    (salt : list byte) (user_id : Z) :
  Forall well_formed ops ->
  registered ops username password salt user_id ->
  List.length salt = 32%nat.
Proof.
  intros Hwf [before [after [E _]]]. subst ops.
  rewrite Forall_forall in Hwf.
  apply (Hwf (Register username password salt)).
  apply in_or_app. right. now left.
Qed.

(** What [authenticate_user] answers for a registered username: the user's
    identifier exactly when the derived keys agree. *)
Lemma authenticate_user_lookup (ops : list operation)
    (username password : string) (salt : list byte) (user_id : Z)
    (provided : string) :
  Forall well_formed ops ->
  registered ops username password salt user_id ->
  authenticate_user (run ops) username provided
  = if bytes_eqb (derived_key provided salt) (derived_key password salt)
    then Some user_id else None.
Proof.
  intros Hwf Hreg.
  pose proof (registered_salt _ _ _ _ _ Hwf Hreg) as Hlen.
  pose proof (registered_row _ _ _ _ _ Hreg) as Hin.
  unfold authenticate_user.
  change username with (Users.username (user_row user_id username password salt))
    at 1.
  rewrite (lookup_unique _ _ (users_unique ops) Hin).
  cbn [user_row Users.id Users.password_hash].
  rewrite verify_password_hash_password by exact Hlen. reflexivity.
Qed.

Lemma authenticate_user_unknown (ops : list operation)
    (username provided : string) :
  unregistered ops username ->
  authenticate_user (run ops) username provided = None.
Proof.
  intros Hun. unfold authenticate_user.
  replace (Sql.select_where (username_where username) (users (run ops)))
    with (@nil Users.row); [reflexivity|].
  symmetry. apply lookup_none. intros Hin.
  apply in_map_iff in Hin. destruct Hin as [row [<- Hin]].
  destruct (users_provenance ops row Hin) as [p [s Hop]].
  exact (Hun p s Hop).
Qed.

(** ** Authentication *)

(** C6, as amended.  For a registered pair, [authenticate_user] returns the
    user's identifier on the registered password, and on any password it
    returns the identifier exactly when the key derived from that password
    and the stored salt equals the stored key, so None whenever the keys
    differ.  On a username that was never registered it returns None, the
    same answer as for a password with a different key. *)
Theorem authenticate_user_registered (ops : list operation)
    (username password : string) (salt : list byte) (user_id : Z) :
  Forall well_formed ops ->
  registered ops username password salt user_id ->
  authenticate_user (run ops) username password = Some user_id
  /\ (forall provided,
        authenticate_user (run ops) username provided
        = if bytes_eqb (derived_key provided salt) (derived_key password salt)
          then Some user_id else None)
  /\ (forall provided,
        derived_key provided salt <> derived_key password salt ->
        authenticate_user (run ops) username provided = None)
  /\ (forall unknown provided,
        unregistered ops unknown ->
        authenticate_user (run ops) unknown provided = None)
  /\ (forall unknown provided provided',
        unregistered ops unknown ->
        derived_key provided salt <> derived_key password salt ->
        authenticate_user (run ops) unknown provided'
        = authenticate_user (run ops) username provided).
Proof.
  intros Hwf Hreg.
  pose proof (authenticate_user_lookup ops username password salt user_id)
    as Hlook.
  assert (Hwrong : forall provided,
             derived_key provided salt <> derived_key password salt ->
             authenticate_user (run ops) username provided = None).
  { intros provided Hne. rewrite Hlook by assumption.
    destruct (bytes_eqb _ _) eqn:E; [|reflexivity].
    apply bytes_eqb_eq in E. exact (False_ind _ (Hne E)). }
  split; [|split; [|split; [|split]]].
  - rewrite Hlook by assumption.
    rewrite bytes_eqb_refl. reflexivity.
  - intros provided. apply Hlook; assumption.
  - exact Hwrong.
  - intros unknown provided Hun. apply authenticate_user_unknown. exact Hun.
  - intros unknown provided provided' Hun Hne.
    rewrite (Hwrong provided Hne). apply authenticate_user_unknown. exact Hun.
Qed.

Lemma alice_registered_well_formed : Forall well_formed alice_registered.
Proof. repeat constructor. Qed.

Lemma alice_is_registered :
  registered alice_registered "alice" "abc" example_salt 1.
Proof. exists [], []. repeat split. Qed.

Lemma authenticate_user_registered_witness :
  authenticate_user (run alice_registered) "alice" "abc" = Some 1.
Proof.
  exact (proj1 (authenticate_user_registered alice_registered "alice" "abc"
                  example_salt 1 alice_registered_well_formed
                  alice_is_registered)).
Defined.

(** C6, as stated, fails: HMAC fills a short key with zero bytes, so the
    registered password followed by a NUL character derives the same key and
    is accepted, although it is a different password. *)
Lemma authenticate_user_different_password_counterexample :
  registered alice_registered "alice" "abc" example_salt 1
  /\ abc_nul <> "abc"
  /\ authenticate_user (run alice_registered) "alice" abc_nul = Some 1.
Proof.
  split; [exact alice_is_registered|]. split; [discriminate|].
  rewrite (authenticate_user_lookup alice_registered "alice" "abc"
             example_salt 1 abc_nul alice_registered_well_formed
             alice_is_registered).
  unfold derived_key.
  change (encode_utf8 abc_nul) with (encode_utf8 "abc" ++ [x00]).
  rewrite pbkdf2_trailing_zero
    by (unfold Hashlib.block_size; cbv [encode_utf8]; simpl List.length; lia).
  generalize (Hashlib.pbkdf2_hmac_sha256 (encode_utf8 "abc") example_salt
                pbkdf2_iterations).
  intros key. rewrite bytes_eqb_refl. reflexivity.
Qed.

(** ** The hashing model against published digests *)

Example sha256_abc :
  bytes_value (Hashlib.sha256 (encode_utf8 "abc"))
  = 0xba7816bf8f01cfea414140de5dae2223b00361a396177a9cb410ff61f20015ad.
Proof. vm_compute. reflexivity. Qed.

Example sha256_empty :
  bytes_value (Hashlib.sha256 [])
  = 0xe3b0c44298fc1c149afbf4c8996fb92427ae41e4649b934ca495991b7852b855.
Proof. vm_compute. reflexivity. Qed.

Example hmac_sha256_rfc4231_case2 :
  bytes_value (Hashlib.hmac_sha256 (encode_utf8 "Jefe")
                 (encode_utf8 "what do ya want for nothing?"))
  = 0x5bdcc146bf60754e6a042426089575c75a003f089d2739839dec58b964ec3843.
Proof. vm_compute. reflexivity. Qed.

Example pbkdf2_two_iterations :
  bytes_value (Hashlib.pbkdf2_hmac_sha256 (encode_utf8 "password")
                 (encode_utf8 "salt") 2)
  = 0xae4d0c95af6b46d32d0adff928f06dd02a303f8ef3c251dfd6e2d85a95474c43.
Proof. vm_compute. reflexivity. Qed.

(** ** Text order is time order on formatted dates and times *)

Lemma digit_compare (a b : Z) :
  0 <= a <= 9 -> 0 <= b <= 9 ->
  Ascii.compare (Clock.digit a) (Clock.digit b) = (a ?= b).
Proof.
  intros Ha Hb. unfold Clock.digit, Ascii.compare.
  rewrite !Z.mod_small by lia.
  rewrite !N_ascii_embedding by lia.
  rewrite <- N2Z.inj_compare, !N2Z.inj_add, !Z2N.id by lia.
  apply Z.add_compare_mono_l.
Qed.

Lemma digit_mod (a : Z) : Clock.digit a = Clock.digit (a mod 10).
Proof. unfold Clock.digit. now rewrite Z.mod_mod by lia. Qed.

Lemma compare_by_parts (base a b : Z) :
  0 < base ->
  (a ?= b)
  = match a / base ?= b / base with
    | Eq => a mod base ?= b mod base
    | c => c
    end.
Proof.
  intros Hbase.
  pose proof (Z.div_mod a base) as Ea. pose proof (Z.div_mod b base) as Eb.
  pose proof (Z.mod_pos_bound a base Hbase) as Ba.
  pose proof (Z.mod_pos_bound b base Hbase) as Bb.
  destruct (Z.compare_spec (a / base) (b / base)) as [E|L|G].
  - destruct (Z.compare_spec (a mod base) (b mod base)) as [E'|L'|G'].
    + apply Z.compare_eq_iff. nia.
    + apply Z.compare_lt_iff. nia.
    + apply Z.compare_gt_iff. nia.
  - apply Z.compare_lt_iff. nia.
  - apply Z.compare_gt_iff. nia.
Qed.

Lemma quotient_range (base bound a : Z) :
  0 < base -> 0 <= a < base * bound ->
  0 <= a / base <= bound - 1 /\ 0 <= a mod base <= base - 1.
Proof.
  intros Hbase Ha. pose proof (Z.mod_pos_bound a base Hbase).
  split; [|lia]. split; [apply Z.div_pos; lia|].
  apply Z.lt_succ_r. apply Z.div_lt_upper_bound; lia.
Qed.

Lemma two_digits_compare (a b : Z) (s t : string) :
  0 <= a <= 99 -> 0 <= b <= 99 ->
  String.compare (Clock.two_digits a s) (Clock.two_digits b t)
  = match a ?= b with
    | Eq => String.compare s t
    | c => c
    end.
Proof.
  intros Ha Hb. unfold Clock.two_digits. cbn [String.compare].
  rewrite (digit_mod a), (digit_mod b).
  destruct (quotient_range 10 10 a) as [Qa Ra]; [lia|lia|].
  destruct (quotient_range 10 10 b) as [Qb Rb]; [lia|lia|].
  rewrite !digit_compare by assumption.
  rewrite (compare_by_parts 10 a b) by lia.
  now destruct (a / 10 ?= b / 10), (a mod 10 ?= b mod 10).
Qed.

Lemma four_digits_compare (a b : Z) (s t : string) :
  0 <= a <= 9999 -> 0 <= b <= 9999 ->
  String.compare (Clock.four_digits a s) (Clock.four_digits b t)
  = match a ?= b with
    | Eq => String.compare s t
    | c => c
    end.
Proof.
  intros Ha Hb. unfold Clock.four_digits.
  destruct (quotient_range 100 100 a) as [Qa Ra]; [lia|lia|].
  destruct (quotient_range 100 100 b) as [Qb Rb]; [lia|lia|].
  rewrite !two_digits_compare by assumption.
  rewrite (compare_by_parts 100 a b) by lia.
  now destruct (a / 100 ?= b / 100), (a mod 100 ?= b mod 100).
Qed.

Lemma strftime_date_compare (a b : Clock.datetime) :
  Clock.valid a -> Clock.valid b ->
  String.compare (Clock.strftime_date a) (Clock.strftime_date b)
  = match Clock.year a ?= Clock.year b with
    | Eq => match Clock.month a ?= Clock.month b with
            | Eq => Clock.day a ?= Clock.day b
            | c => c
            end
    | c => c
    end.
Proof.
  intros Ha Hb. unfold Clock.valid in *. unfold Clock.strftime_date.
  rewrite four_digits_compare by lia. cbn [String.compare].
  rewrite ascii_compare_refl, two_digits_compare by lia. cbn [String.compare].
  rewrite ascii_compare_refl, two_digits_compare by lia. cbn [String.compare].
  now destruct (Clock.year a ?= Clock.year b),
               (Clock.month a ?= Clock.month b),
               (Clock.day a ?= Clock.day b).
Qed.

Lemma strftime_time_compare (a b : Clock.datetime) :
  Clock.valid a -> Clock.valid b ->
  String.compare (Clock.strftime_time a) (Clock.strftime_time b)
  = match Clock.hour a ?= Clock.hour b with
    | Eq => Clock.minute a ?= Clock.minute b
    | c => c
    end.
Proof.
  intros Ha Hb. unfold Clock.valid in *. unfold Clock.strftime_time.
  rewrite two_digits_compare by lia. cbn [String.compare].
  rewrite ascii_compare_refl, two_digits_compare by lia. cbn [String.compare].
  now destruct (Clock.hour a ?= Clock.hour b),
               (Clock.minute a ?= Clock.minute b).
Qed.

Lemma strftime_date_before (a b : Clock.datetime) :
  Clock.valid a -> Clock.valid b ->
  (text_lt (Clock.strftime_date a) (Clock.strftime_date b)
   <-> Clock.date_before a b)
  /\ (Clock.strftime_date a = Clock.strftime_date b <-> Clock.same_date a b).
Proof.
  intros Ha Hb. unfold text_lt, Clock.date_before, Clock.same_date.
  pose proof (strftime_date_compare a b Ha Hb) as C.
  assert (E : Clock.strftime_date a = Clock.strftime_date b
              <-> String.compare (Clock.strftime_date a)
                                 (Clock.strftime_date b) = Eq).
  { split; [intros ->; apply string_compare_refl|apply string_compare_eq]. }
  rewrite E, C.
  destruct (Z.compare_spec (Clock.year a) (Clock.year b)),
           (Z.compare_spec (Clock.month a) (Clock.month b)),
           (Z.compare_spec (Clock.day a) (Clock.day b));
    split; split; intros; try discriminate; try reflexivity; try lia.
Qed.

Lemma strftime_time_before (a b : Clock.datetime) :
  Clock.valid a -> Clock.valid b ->
  text_lt (Clock.strftime_time a) (Clock.strftime_time b)
  <-> Clock.time_before a b.
Proof.
  intros Ha Hb. unfold text_lt, Clock.time_before.
  rewrite strftime_time_compare by assumption.
  destruct (Z.compare_spec (Clock.hour a) (Clock.hour b)),
           (Z.compare_spec (Clock.minute a) (Clock.minute b));
    split; intros; try discriminate; try reflexivity; try lia.
Qed.

(** ** Reading dates and times *)

Lemma digit_value_digit (n : Z) : digit_value (Clock.digit n) = Some (n mod 10).
Proof.
  unfold digit_value, Clock.digit. cbv zeta.
  pose proof (Z.mod_pos_bound n 10 ltac:(lia)) as B.
  rewrite N_ascii_embedding by lia.
  rewrite N2Z.inj_add, Z2N.id by lia.
  change (Z.of_N 48) with 48.
  rewrite (proj2 (Z.leb_le 48 (48 + n mod 10))) by lia.
  rewrite (proj2 (Z.leb_le (48 + n mod 10) 57)) by lia.
  cbn [andb]. f_equal. lia.
Qed.

Lemma numbers_from_two_digits (current : option Z) (n : Z) (rest : string) :
  0 <= n <= 99 ->
  numbers_from current (Clock.two_digits n rest)
  = numbers_from (Some (100 * match current with
                              | Some c => c
                              | None => 0
                              end + n)) rest.
Proof.
  intros Hn. unfold Clock.two_digits. cbn [numbers_from].
  rewrite !digit_value_digit.
  destruct (quotient_range 10 10 n) as [Q R]; [lia|lia|].
  rewrite (Z.mod_small (n / 10) 10) by lia.
  pose proof (Z.div_mod n 10 ltac:(lia)) as E.
  destruct current as [c|]; f_equal; f_equal; lia.
Qed.

Lemma numbers_strftime_time (t : Clock.datetime) :
  Clock.valid t ->
  numbers (Clock.strftime_time t) = [Clock.hour t; Clock.minute t].
Proof.
  intros Ht. unfold Clock.valid in Ht. unfold numbers, Clock.strftime_time.
  rewrite numbers_from_two_digits by lia. cbn [numbers_from].
  change (digit_value ":") with (@None Z). cbv iota.
  rewrite numbers_from_two_digits by lia. cbn [numbers_from].
  repeat (f_equal; try lia).
Qed.

Lemma numbers_strftime_date (t : Clock.datetime) :
  Clock.valid t ->
  numbers (Clock.strftime_date t)
  = [Clock.year t; Clock.month t; Clock.day t].
Proof.
  intros Ht. unfold Clock.valid in Ht.
  unfold numbers, Clock.strftime_date, Clock.four_digits.
  destruct (quotient_range 100 100 (Clock.year t)) as [Q R]; [lia|lia|].
  pose proof (Z.div_mod (Clock.year t) 100 ltac:(lia)) as E.
  rewrite !numbers_from_two_digits by lia. cbn [numbers_from].
  change (digit_value "-") with (@None Z). cbv iota.
  rewrite numbers_from_two_digits by lia. cbn [numbers_from].
  change (digit_value "-") with (@None Z). cbv iota.
  rewrite numbers_from_two_digits by lia. cbn [numbers_from].
  repeat (f_equal; try lia).
Qed.

(** On formatted dates and times the text order of the queries is the
    order of the calendar and of the clock. *)
Lemma text_order_of_dates (a b : Clock.datetime) :
  Clock.valid a -> Clock.valid b ->
  (text_lt (Clock.strftime_date a) (Clock.strftime_date b)
   <-> before (Clock.strftime_date a) (Clock.strftime_date b))
  /\ (Clock.strftime_date a = Clock.strftime_date b
      <-> same_day (Clock.strftime_date a) (Clock.strftime_date b)).
Proof.
  intros Ha Hb. destruct (strftime_date_before a b Ha Hb) as [Hlt Heq].
  unfold before, same_day. rewrite Hlt, Heq, !numbers_strftime_date by assumption.
  unfold Clock.date_before, Clock.same_date. cbn [numbers_lt].
  split; split.
  - intros [H | [H1 [H | [H2 H3]]]]; tauto.
  - intros [H | [H1 [H | [H2 [H | [_ []]]]]]]; tauto.
  - intros [-> [-> ->]]. reflexivity.
  - intros E. injection E. tauto.
Qed.

Lemma text_order_of_times (a b : Clock.datetime) :
  Clock.valid a -> Clock.valid b ->
  text_lt (Clock.strftime_time a) (Clock.strftime_time b)
  <-> before (Clock.strftime_time a) (Clock.strftime_time b).
Proof.
  intros Ha Hb. rewrite (strftime_time_before a b Ha Hb).
  unfold before. rewrite !numbers_strftime_time by assumption.
  unfold Clock.time_before. cbn [numbers_lt].
  split.
  - intros [H | [H1 H]]; tauto.
  - intros [H | [H1 [H | [_ []]]]]; tauto.
Qed.

Lemma padded_overdue (scheduled now : Clock.datetime) (r : Todos.row) :
  Clock.valid scheduled -> Clock.valid now ->
  Todos.date r = Clock.strftime_date scheduled ->
  Todos.due_time r = None
  \/ Todos.due_time r = Some (Clock.strftime_time scheduled) ->
  overdue_in_text_order (Clock.strftime_date now) (Clock.strftime_time now) r
  <-> past_due (Clock.strftime_date now) (Clock.strftime_time now) r.
Proof.
  intros Hs Hn Hdate Hdue.
  destruct (text_order_of_dates scheduled now Hs Hn) as [Hlt Heq].
  pose proof (text_order_of_times scheduled now Hs Hn) as Ht.
  unfold overdue_in_text_order, past_due. rewrite Hdate, Hlt, Heq.
  assert (Hdue' :
    (exists t, Todos.due_time r = Some t
               /\ text_lt t (Clock.strftime_time now))
    <-> (exists t, Todos.due_time r = Some t
                   /\ before t (Clock.strftime_time now))).
  { destruct Hdue as [-> | ->].
    - split; intros [t [E _]]; discriminate.
    - split; intros [t [E H]]; injection E as <-;
        eexists; (split; [reflexivity|]); now apply Ht. }
  rewrite Hdue'. reflexivity.
Qed.

(** ** The overdue count *)

Lemma text_lt_irrefl (a : string) : ~ text_lt a a.
Proof. unfold text_lt. rewrite string_compare_refl. discriminate. Qed.

(** C4. The overdue count misses a pending todo whose due time has passed
    when the due time was typed without zero padding.  The form with the due
    time 9:5, which the validator of the form lets through, is saved on
    2024-01-10 at 08:00 and stores one pending todo of user 1.  At ten
    o'clock of that day the due time, five past nine, is strictly before the
    current time, so the todo is overdue; [get_todo_stats] counts it as
    pending and reports no overdue todo, because the query compares the two
    times as texts and the text 9:5 is after the text 10:00. *)
Theorem overdue_misses_unpadded_due_time :
  (forall validate_time_format : string -> bool,
      validate_time_format "9:5" = true ->
      TodoApp.save_todo validate_time_format empty_database add_mode_view
                        unpadded_form "2024-01-10" "08:00"
      = (unpadded_todo, TodoApp.showinfo "Success" "Todo added successfully"))
  /\ List.length (todos unpadded_todo) = 1%nat
  /\ Forall (fun r => Todos.user_id r = 1
                      /\ past_due (Clock.strftime_date ten_o_clock)
                                  (Clock.strftime_time ten_o_clock) r)
            (todos unpadded_todo)
  /\ pending (get_todo_stats unpadded_todo 1
                (Clock.strftime_date ten_o_clock)
                (Clock.strftime_time ten_o_clock)) = 1
  /\ overdue (get_todo_stats unpadded_todo 1
                (Clock.strftime_date ten_o_clock)
                (Clock.strftime_time ten_o_clock)) = 0.
Proof.
  split; [|split; [|split; [|split]]].
  - intros validate_time_format Hvalid. unfold TodoApp.save_todo. cbv zeta.
    change (TodoApp.due_time_entry unpadded_form) with "9:5".
    rewrite Hvalid. reflexivity.
  - reflexivity.
  - constructor; [|constructor]. split; [reflexivity|].
    split; [reflexivity|]. right. split; [reflexivity|].
    exists "9:5". split; [reflexivity|].
    unfold before. left. reflexivity.
  - reflexivity.
  - reflexivity.
Qed.

(** X19.  What the overdue count is.  It is the number of rows of the user
    that the query condition selects: pending, and dated before the current
    date, or dated on it with a due time that is not NULL and is before the
    current time, all in the byte-wise order of the texts.  A row
    [mark_todo_as_done] has just completed is not selected.  On a row whose
    date and due time are zero padded, as [strftime] writes them, and at
    the readings of a clock, the condition selects the row exactly when the
    todo is overdue in the order of the calendar and of the clock. *)
Theorem get_todo_stats_overdue (db : database) (user_id : Z)
    (current_date current_time : string) :
  overdue (get_todo_stats db user_id current_date current_time)
  = Z.of_nat
      (List.length
         (filter (fun r => (Todos.user_id r =? user_id)
                           && is_overdue_b current_date current_time r)
                 (todos db)))
  /\ (forall r, is_overdue_b current_date current_time r = true
                <-> overdue_in_text_order current_date current_time r)
  /\ (forall todo_id now r,
        In r (todos (fst (mark_todo_as_done db todo_id now))) ->
        Todos.id r = todo_id ->
        is_overdue_b current_date current_time r = false)
  /\ (forall (scheduled now : Clock.datetime) r,
        Clock.valid scheduled -> Clock.valid now ->
        Todos.date r = Clock.strftime_date scheduled ->
        Todos.due_time r = None
        \/ Todos.due_time r = Some (Clock.strftime_time scheduled) ->
        (is_overdue_b (Clock.strftime_date now) (Clock.strftime_time now) r
         = true
         <-> past_due (Clock.strftime_date now) (Clock.strftime_time now) r)
        /\ (Clock.date_before scheduled now ->
            Todos.status r = "pending" ->
            past_due (Clock.strftime_date now) (Clock.strftime_time now) r)
        /\ (Clock.same_date scheduled now ->
            Todos.status r = "pending" ->
            Todos.due_time r = Some (Clock.strftime_time scheduled) ->
            (past_due (Clock.strftime_date now) (Clock.strftime_time now) r
             <-> Clock.time_before scheduled now))).
Proof.
  split; [|split; [|split]].
  - unfold get_todo_stats, Sql.rowcount; cbn [overdue].
    now rewrite (select_where_filter _ _ _
                   (overdue_where_holds user_id current_date current_time)).
  - apply is_overdue_reflect.
  - intros todo_id now r Hin Hid.
    unfold mark_todo_as_done, with_todos, Sql.update_where in Hin.
    cbn [fst todos] in Hin. apply in_map_iff in Hin.
    destruct Hin as [r0 [Hr0 Hin]].
    rewrite id_where_holds in Hr0.
    destruct (Z.eqb_spec (Todos.id r0) todo_id) as [E|E].
    + subst r. reflexivity.
    + subst r. contradiction.
  - intros scheduled now r Hs Hn Hdate Hdue.
    pose proof (padded_overdue scheduled now r Hs Hn Hdate Hdue) as Hp.
    destruct (strftime_date_before scheduled now Hs Hn) as [Hlt Heq].
    split; [|split].
    + rewrite is_overdue_reflect. exact Hp.
    + intros Hbefore Hpending. apply Hp.
      split; [exact Hpending|]. left. rewrite Hdate. now apply Hlt.
    + intros Hsame Hpending Hdue'. rewrite <- Hp.
      unfold overdue_in_text_order. apply Heq in Hsame.
      rewrite Hdate, Hsame, Hdue'.
      rewrite <- (strftime_time_before scheduled now Hs Hn). split.
      * intros [_ [Habs | [_ [t [Et Ht]]]]].
        -- now apply text_lt_irrefl in Habs.
        -- injection Et as <-. exact Ht.
      * intros Ht. split; [exact Hpending|]. right.
        split; [reflexivity|]. eauto.
Qed.

(** The examples of section 8: yesterday's todo before and after
    completion, and today's todo one minute before and after its due time. *)
Example overdue_yesterday :
  overdue (get_todo_stats yesterday_todo 1 "2024-01-10" "08:00") = 1
  /\ overdue (get_todo_stats
                (fst (mark_todo_as_done yesterday_todo 1 "2024-01-10 08:00:00"))
                1 "2024-01-10" "08:00") = 0.
Proof. split; reflexivity. Qed.

Example overdue_today :
  overdue (get_todo_stats (today_todo "10:31") 1 "2024-01-10" "10:30") = 0
  /\ overdue (get_todo_stats (today_todo "10:29") 1 "2024-01-10" "10:30") = 1
  /\ overdue (get_todo_stats (today_todo "10:30") 1 "2024-01-10" "10:30") = 0.
Proof. repeat split; reflexivity. Qed.

(** * Further properties of the stores and of the handlers *)

(** ** Identifiers and statuses along a history *)

Lemma map_id_update_where (w : Todos.row -> Sql.truth)
    (set : Todos.row -> Todos.row) (rows : list Todos.row) :
  (forall r, Todos.id (set r) = Todos.id r) ->
  map Todos.id (Sql.update_where w set rows) = map Todos.id rows.
Proof.
  intros Hset. unfold Sql.update_where. rewrite map_map.
  apply map_ext. intros r. now destruct (Sql.holds (w r)).
Qed.

Lemma NoDup_map_filter {X Y : Type} (f : X -> Y) (g : X -> bool) (l : list X) :
  NoDup (map f l) -> NoDup (map f (filter g l)).
Proof.
  induction l as [|x l IH]; simpl; [auto|].
  intros H. inversion H as [|y ys Hy Hys]; subst.
  destruct (g x); simpl; [|auto].
  constructor; [|auto].
  intros Hin. apply Hy. apply in_map_iff in Hin.
  destruct Hin as [x' [E Hx']]. apply filter_In in Hx'.
  rewrite <- E. apply in_map. tauto.
Qed.

Lemma register_user_todos_seq (db : database) (username password : string)
    (salt : list byte) :
  todos_seq (fst (register_user db username password salt)) = todos_seq db.
Proof.
  unfold register_user.
  now destruct (Sql.select_where (username_where username) (users db)).
Qed.

Lemma update_todos_ok (db : database) (todo_id : Z) (set : list assignment) :
  (forall r, Todos.status r = "pending" \/ Todos.status r = "completed" ->
             Todos.status (assign_all set r) = "pending"
             \/ Todos.status (assign_all set r) = "completed") ->
  todos_ok db ->
  todos_ok (with_todos db (Sql.update_where (id_where todo_id)
                                            (assign_all set) (todos db))).
Proof.
  intros Hst [H0 [H1 [H2 H3]]]. unfold todos_ok; cbn [with_todos todos todos_seq].
  split; [exact H0|]. split; [|split].
  - rewrite map_id_update_where; [exact H1|].
    intros r. apply assign_all_frame.
  - apply update_where_Forall; [|exact H2].
    intros r Hr. now rewrite (proj1 (assign_all_frame set r)).
  - apply update_where_Forall; [|exact H3]. exact Hst.
Qed.

Lemma execute_todos_ok (db : database) (o : operation) :
  todos_ok db -> todos_ok (execute db o).
Proof.
  intros H. destruct o; cbn [execute].
  - unfold todos_ok. now rewrite register_user_todos, register_user_todos_seq.
  - destruct H as [H0 [H1 [H2 H3]]].
    unfold todos_ok, add_todo; cbn [fst todos todos_seq].
    split; [lia|]. split; [|split].
    + rewrite map_app. apply NoDup_app; [exact H1|repeat constructor; simpl; tauto|].
      intros x Hx [<-|[]]. apply in_map_iff in Hx. destruct Hx as [r [E Hr]].
      rewrite Forall_forall in H2. apply H2 in Hr. cbn [Todos.id] in E. lia.
    + apply Forall_app. split.
      * eapply Forall_impl; [|exact H2]. intros r Hr. cbv beta in *. lia.
      * constructor; [cbn [Todos.id]; lia|constructor].
    + apply Forall_app. split; [exact H3|].
      constructor; [now left|constructor].
  - unfold update_todo; cbn [fst]. apply update_todos_ok; [|exact H].
    intros r Hr.
    destruct (update_todo_query_effect title description due_time priority r)
      as [_ [_ [_ [_ [E _]]]]].
    now rewrite E.
  - destruct H as [H0 [H1 [H2 H3]]].
    unfold todos_ok, delete_todo; cbn [fst with_todos todos todos_seq].
    split; [exact H0|]. split; [|split].
    + unfold Sql.delete_where. now apply NoDup_map_filter.
    + now apply delete_where_Forall.
    + now apply delete_where_Forall.
  - unfold mark_todo_as_done; cbn [fst]. apply update_todos_ok; [|exact H].
    intros r _. now right.
  - unfold mark_todo_as_pending; cbn [fst]. apply update_todos_ok; [|exact H].
    intros r _. now left.
Qed.

Lemma run_todos_ok (ops : list operation) : todos_ok (run ops).
Proof.
  induction ops as [|o ops IH] using rev_ind.
  - unfold todos_ok; simpl. repeat split; try constructor. lia.
  - rewrite run_snoc. now apply execute_todos_ok.
Qed.

(** X5.  In every state of a history the identifiers of the todos are
    distinct and lie between 1 and the sequence value, and [add_todo]
    returns an identifier that is at least 1 and greater than the identifier
    of every todo already stored. *)
Theorem todo_identifiers_fresh (ops : list operation) (user_id : Z)
    (date title description : string) (due_time : option string)
    (priority : string) :
  NoDup (map Todos.id (todos (run ops)))
  /\ (forall r, In r (todos (run ops)) ->
                1 <= Todos.id r <= todos_seq (run ops))
  /\ 1 <= snd (add_todo (run ops) user_id date title description
                        due_time priority)
  /\ (forall r, In r (todos (run ops)) ->
                Todos.id r < snd (add_todo (run ops) user_id date title
                                           description due_time priority)).
Proof.
  destruct (run_todos_ok ops) as [H0 [H1 [H2 _]]].
  rewrite Forall_forall in H2. cbn [add_todo snd].
  split; [exact H1|]. split; [exact H2|]. split; [lia|].
  intros r Hr. apply H2 in Hr. lia.
Qed.

(** ** What the views contain *)

Lemma in_order_by {R K : Type} (key : R -> K) (cmp : K -> K -> comparison)
    (rows : list R) (x : R) :
  In x (Sql.order_by key cmp rows) <-> In x rows.
Proof.
  split; apply Permutation_in.
  - apply order_by_perm.
  - apply Permutation_sym, order_by_perm.
Qed.

Lemma in_get_todos_by_date (db : database) (user_id : Z) (date : string)
    (s : Selected.row) :
  In s (get_todos_by_date db user_id date)
  <-> exists r, In r (todos db)
                /\ Todos.user_id r = user_id
                /\ Todos.date r = date
                /\ s = select_columns r.
Proof.
  unfold get_todos_by_date.
  rewrite (select_where_filter _ _ _ (by_date_where_holds user_id date)).
  rewrite in_map_iff. split.
  - intros [r [E Hr]]. apply in_order_by, filter_In in Hr.
    destruct Hr as [Hr Hw]. unfold on_date in Hw.
    apply andb_true_iff in Hw. destruct Hw as [Hu Hd].
    apply Z.eqb_eq in Hu. apply String.eqb_eq in Hd. eauto.
  - intros [r [Hr [Hu [Hd E]]]]. exists r. split; [now symmetry|].
    apply in_order_by, filter_In. split; [exact Hr|].
    unfold on_date. now rewrite Hu, Hd, Z.eqb_refl, String.eqb_refl.
Qed.

Lemma in_get_todos_by_priority (db : database) (user_id : Z) (s : Selected.row) :
  In s (get_todos_by_priority db user_id)
  <-> exists r, In r (todos db)
                /\ Todos.user_id r = user_id
                /\ Todos.status r = "pending"
                /\ s = select_columns r.
Proof.
  unfold get_todos_by_priority.
  rewrite (select_where_filter _ _ _ (by_priority_where_holds user_id)).
  rewrite in_map_iff. split.
  - intros [r [E Hr]]. apply in_order_by, filter_In in Hr.
    destruct Hr as [Hr Hw]. unfold with_status in Hw.
    apply andb_true_iff in Hw. destruct Hw as [Hu Hd].
    apply Z.eqb_eq in Hu. apply String.eqb_eq in Hd. eauto.
  - intros [r [Hr [Hu [Hd E]]]]. exists r. split; [now symmetry|].
    apply in_order_by, filter_In. split; [exact Hr|].
    unfold with_status. now rewrite Hu, Hd, Z.eqb_refl.
Qed.

(** X4.  Round trip of [add_todo] and [get_todos_by_date]: after an insert
    the daily view of the same user and date contains a row with the returned
    identifier, the supplied fields and status pending; no other row of any
    daily view has that identifier; and every row the views showed before is
    still shown. *)
Theorem add_todo_round_trip (ops : list operation) (user_id : Z)
    (date title description : string) (due_time : option string)
    (priority : string) :
  let A := add_todo (run ops) user_id date title description due_time priority in
  let added := {| Selected.todo_id := snd A;
                  Selected.date := date;
                  Selected.title := title;
                  Selected.description := description;
                  Selected.status := "pending";
                  Selected.due_time := due_time;
                  Selected.priority := priority |} in
  In added (get_todos_by_date (fst A) user_id date)
  /\ (forall viewer d s,
        In s (get_todos_by_date (fst A) viewer d) ->
        Selected.todo_id s = snd A ->
        s = added /\ viewer = user_id /\ d = date)
  /\ (forall viewer d s,
        In s (get_todos_by_date (run ops) viewer d) ->
        In s (get_todos_by_date (fst A) viewer d)).
Proof.
  cbv zeta. destruct (run_todos_ok ops) as [_ [_ [Hrange _]]].
  rewrite Forall_forall in Hrange.
  split; [|split].
  - apply in_get_todos_by_date. eexists. split.
    + cbn [add_todo fst todos]. apply in_or_app. right. left. reflexivity.
    + now repeat split.
  - intros viewer d s Hin Hid. apply in_get_todos_by_date in Hin.
    destruct Hin as [r [Hr [Hu [Hd ->]]]].
    cbn [add_todo fst snd todos] in *. apply in_app_or in Hr.
    destruct Hr as [Hr|[<-|[]]].
    + apply Hrange in Hr. cbn [select_columns Selected.todo_id] in Hid. lia.
    + cbn in Hu, Hd. now repeat split.
  - intros viewer d s Hin. apply in_get_todos_by_date in Hin.
    destruct Hin as [r [Hr H]]. apply in_get_todos_by_date. exists r.
    split; [|exact H]. cbn [add_todo fst todos]. apply in_or_app. now left.
Qed.

(** X7.  [delete_todo] removes the todo from every daily view and keeps
    every other row of it; a second call on the same identifier returns false
    and changes nothing. *)
Theorem delete_todo_removes_from_views (db : database) (todo_id : Z) :
  (forall user_id date s,
     In s (get_todos_by_date (fst (delete_todo db todo_id)) user_id date)
     <-> In s (get_todos_by_date db user_id date)
         /\ Selected.todo_id s <> todo_id)
  /\ delete_todo (fst (delete_todo db todo_id)) todo_id
     = (fst (delete_todo db todo_id), false).
Proof.
  split.
  - intros user_id date s. rewrite !in_get_todos_by_date.
    unfold delete_todo; cbn [fst with_todos todos]. unfold Sql.delete_where.
    split.
    + intros [r [Hr [Hu [Hd ->]]]]. apply filter_In in Hr.
      destruct Hr as [Hr Hw]. rewrite id_where_holds in Hw.
      split; [eauto 6|]. cbn [select_columns Selected.todo_id].
      apply negb_true_iff, Z.eqb_neq in Hw. exact Hw.
    + intros [[r [Hr [Hu [Hd ->]]]] Hne]. exists r.
      split; [|now repeat split]. apply filter_In. split; [exact Hr|].
      rewrite id_where_holds. apply negb_true_iff, Z.eqb_neq. exact Hne.
  - assert (Hu : forall r, In r (todos (fst (delete_todo db todo_id))) ->
                           Todos.id r <> todo_id).
    { apply find_todo_unmatched. unfold find_todo, delete_todo.
      cbn [fst with_todos todos]. apply find_delete_where. }
    unfold delete_todo at 1.
    rewrite delete_where_unmatched by exact Hu.
    rewrite (proj2 (unmatched_iff _ _) Hu).
    now rewrite with_todos_same.
Qed.

(** X16.  The pending view and the daily views agree: a row is in the
    pending view of a user exactly when it is in that user's daily view of
    its date with status pending. *)
Theorem pending_view_within_daily_views (db : database) (user_id : Z)
    (s : Selected.row) :
  In s (get_todos_by_priority db user_id)
  <-> In s (get_todos_by_date db user_id (Selected.date s))
      /\ Selected.status s = "pending".
Proof.
  rewrite in_get_todos_by_priority, in_get_todos_by_date. split.
  - intros [r [Hr [Hu [Hs ->]]]]. split; [|exact Hs].
    exists r. now repeat split.
  - intros [[r [Hr [Hu [Hd ->]]]] Hs]. exists r. now repeat split.
Qed.

(** ** Mutations of another user's todo *)

Lemma by_date_where_scoped (user_id : Z) (date : string) :
  scoped user_id (by_date_where user_id date).
Proof.
  intros r Hne. rewrite by_date_where_holds. unfold on_date.
  now rewrite (proj2 (Z.eqb_neq _ _) Hne).
Qed.

Lemma by_priority_where_scoped (user_id : Z) :
  scoped user_id (by_priority_where user_id).
Proof.
  intros r Hne. rewrite by_priority_where_holds. unfold with_status.
  now rewrite (proj2 (Z.eqb_neq _ _) Hne).
Qed.

Lemma completed_where_scoped (user_id : Z) :
  scoped user_id (completed_where user_id).
Proof.
  intros r Hne. unfold completed_where; simpl.
  rewrite (proj2 (Z.eqb_neq _ _) Hne).
  now destruct (String.eqb (Todos.status r) "completed").
Qed.

Lemma pending_where_scoped (user_id : Z) :
  scoped user_id (pending_where user_id).
Proof.
  intros r Hne. unfold pending_where; simpl.
  rewrite (proj2 (Z.eqb_neq _ _) Hne).
  now destruct (String.eqb (Todos.status r) "pending").
Qed.

Lemma overdue_where_scoped (user_id : Z) (current_date current_time : string) :
  scoped user_id (overdue_where user_id current_date current_time).
Proof.
  intros r Hne. rewrite overdue_where_holds.
  now rewrite (proj2 (Z.eqb_neq _ _) Hne).
Qed.

Lemma same_selection_same_views (user_id : Z) (db db' : database) :
  (forall w, scoped user_id w ->
             Sql.select_where w (todos db') = Sql.select_where w (todos db)) ->
  same_views user_id db db'.
Proof.
  intros H. unfold same_views. split; [|split].
  - intros date. unfold get_todos_by_date.
    now rewrite (H _ (by_date_where_scoped user_id date)).
  - unfold get_todos_by_priority.
    now rewrite (H _ (by_priority_where_scoped user_id)).
  - intros current_date current_time. unfold get_todo_stats, Sql.rowcount.
    now rewrite (H _ (completed_where_scoped user_id)),
                (H _ (pending_where_scoped user_id)),
                (H _ (overdue_where_scoped user_id current_date current_time)).
Qed.

Lemma select_where_update_other (user_id todo_id : Z) (set : list assignment)
    (w : Todos.row -> Sql.truth) (rows : list Todos.row) :
  scoped user_id w ->
  (forall r, In r rows -> Todos.id r = todo_id -> Todos.user_id r <> user_id) ->
  Sql.select_where w (Sql.update_where (id_where todo_id) (assign_all set) rows)
  = Sql.select_where w rows.
Proof.
  intros Hw. unfold Sql.select_where, Sql.update_where.
  induction rows as [|r rows IH]; intros Hother; [reflexivity|].
  cbn [map filter]. rewrite id_where_holds.
  rewrite IH by (intros r' Hr'; apply Hother; now right).
  destruct (Z.eqb_spec (Todos.id r) todo_id) as [E|E]; [|reflexivity].
  assert (Hr : Todos.user_id r <> user_id) by (apply Hother; [now left|exact E]).
  rewrite (Hw r Hr). rewrite (Hw (assign_all set r)); [reflexivity|].
  now rewrite (proj1 (proj2 (assign_all_frame set r))).
Qed.

Lemma select_where_delete_other (user_id todo_id : Z)
    (w : Todos.row -> Sql.truth) (rows : list Todos.row) :
  scoped user_id w ->
  (forall r, In r rows -> Todos.id r = todo_id -> Todos.user_id r <> user_id) ->
  Sql.select_where w (Sql.delete_where (id_where todo_id) rows)
  = Sql.select_where w rows.
Proof.
  intros Hw. unfold Sql.select_where, Sql.delete_where.
  induction rows as [|r rows IH]; intros Hother; [reflexivity|].
  cbn [filter]. rewrite id_where_holds.
  destruct (Z.eqb_spec (Todos.id r) todo_id) as [E|E]; cbn [negb filter].
  - assert (Hr : Todos.user_id r <> user_id) by (apply Hother; [now left|exact E]).
    rewrite (Hw r Hr). apply IH. intros r' Hr'. apply Hother. now right.
  - rewrite IH by (intros r' Hr'; apply Hother; now right). reflexivity.
Qed.

(** X6.  A mutation of a todo that belongs to another user is invisible:
    when no row with the identifier is owned by the user, [update_todo],
    [delete_todo], [mark_todo_as_done] and [mark_todo_as_pending] on that
    identifier leave every daily view, the pending view and the statistics
    of the user as they were; so does an [add_todo] of another user. *)
Theorem other_users_mutations_invisible (db : database) (user_id todo_id : Z)
    (title description now : string) (due_time priority : option string) :
  (forall r, In r (todos db) -> Todos.id r = todo_id ->
             Todos.user_id r <> user_id) ->
  same_views user_id db
    (fst (update_todo db todo_id title description due_time priority))
  /\ same_views user_id db (fst (delete_todo db todo_id))
  /\ same_views user_id db (fst (mark_todo_as_done db todo_id now))
  /\ same_views user_id db (fst (mark_todo_as_pending db todo_id))
  /\ (forall other date title' description' due_time' priority',
        other <> user_id ->
        same_views user_id db
          (fst (add_todo db other date title' description' due_time' priority'))).
Proof.
  intros Hother. split; [|split; [|split; [|split]]].
  - apply same_selection_same_views. intros w Hw.
    unfold update_todo; cbn [fst with_todos todos].
    now apply (select_where_update_other user_id).
  - apply same_selection_same_views. intros w Hw.
    unfold delete_todo; cbn [fst with_todos todos].
    now apply (select_where_delete_other user_id).
  - apply same_selection_same_views. intros w Hw.
    unfold mark_todo_as_done; cbn [fst with_todos todos].
    now apply (select_where_update_other user_id).
  - apply same_selection_same_views. intros w Hw.
    unfold mark_todo_as_pending; cbn [fst with_todos todos].
    now apply (select_where_update_other user_id).
  - intros other date title' description' due_time' priority' Hne.
    apply same_selection_same_views. intros w Hw.
    unfold add_todo; cbn [fst todos]. unfold Sql.select_where.
    rewrite filter_app. cbn [filter].
    rewrite Hw by exact Hne. apply app_nil_r.
Qed.

Lemma other_users_mutations_invisible_witness :
  same_views 2 two_pending_todos (fst (delete_todo two_pending_todos 1)).
Proof.
  refine (proj1 (proj2
    (other_users_mutations_invisible two_pending_todos 2 1
       "Call bank" "" "2024-01-10 08:00:00" None None _))).
  intros r [<-|[<-|[]]] _; discriminate.
Defined.

(** ** The statistics *)

Lemma completed_where_holds (user_id : Z) (r : Todos.row) :
  Sql.holds (completed_where user_id r) = with_status user_id "completed" r.
Proof.
  unfold completed_where, with_status; simpl.
  now destruct (Todos.user_id r =? user_id),
               (String.eqb (Todos.status r) "completed").
Qed.

Lemma pending_where_holds (user_id : Z) (r : Todos.row) :
  Sql.holds (pending_where user_id r) = with_status user_id "pending" r.
Proof.
  unfold pending_where, with_status; simpl.
  now destruct (Todos.user_id r =? user_id),
               (String.eqb (Todos.status r) "pending").
Qed.

Lemma count_by_status (user_id : Z) (rows : list Todos.row) :
  Forall (fun r => Todos.status r = "pending" \/ Todos.status r = "completed")
         rows ->
  (List.length (filter (with_status user_id "completed") rows)
   + List.length (filter (with_status user_id "pending") rows)
   = List.length (filter (owned_by user_id) rows))%nat.
Proof.
  induction 1 as [|r rows Hr _ IH]; [reflexivity|].
  cbn [filter].
  assert (E : (with_status user_id "completed" r = false
               /\ with_status user_id "pending" r = owned_by user_id r)
              \/ (with_status user_id "completed" r = owned_by user_id r
                  /\ with_status user_id "pending" r = false)).
  { unfold with_status, owned_by.
    destruct Hr as [E|E]; rewrite E; [left|right]; simpl;
      now rewrite andb_false_r, andb_true_r. }
  destruct E as [[-> ->]|[-> ->]];
    destruct (owned_by user_id r); cbn [List.length]; lia.
Qed.

Lemma filter_length_le {X : Type} (f g : X -> bool) (l : list X) :
  (forall x, f x = true -> g x = true) ->
  (List.length (filter f l) <= List.length (filter g l))%nat.
Proof.
  intros H. induction l as [|x l IH]; [reflexivity|].
  cbn [filter]. destruct (f x) eqn:E.
  - rewrite (H x E). cbn [List.length]. lia.
  - destruct (g x); cbn [List.length]; lia.
Qed.

(** X8.  In every state of a history the completed and pending counts of
    [get_todo_stats] add up to the number of todos of the user, and in every
    state the overdue count is at most the pending count. *)
Theorem stats_partition (ops : list operation) (user_id : Z)
    (current_date current_time : string) :
  completed (get_todo_stats (run ops) user_id current_date current_time)
  + pending (get_todo_stats (run ops) user_id current_date current_time)
  = Z.of_nat (List.length (filter (owned_by user_id) (todos (run ops))))
  /\ 0 <= overdue (get_todo_stats (run ops) user_id current_date current_time)
     <= pending (get_todo_stats (run ops) user_id current_date current_time).
Proof.
  destruct (run_todos_ok ops) as [_ [_ [_ Hst]]].
  unfold get_todo_stats, Sql.rowcount; cbn [completed pending overdue].
  rewrite (select_where_filter _ _ _ (completed_where_holds user_id)),
          (select_where_filter _ _ _ (pending_where_holds user_id)),
          (select_where_filter _ _ _
             (overdue_where_holds user_id current_date current_time)).
  split.
  - rewrite <- Nat2Z.inj_add. f_equal. now apply count_by_status.
  - split; [lia|]. apply Nat2Z.inj_le. apply filter_length_le.
    intros r Hr. unfold with_status. unfold is_overdue_b in Hr.
    apply andb_true_iff in Hr. destruct Hr as [Hu Hr].
    apply andb_true_iff in Hr. destruct Hr as [Hs _].
    now rewrite Hu, Hs.
Qed.




(** ** The stored password record *)

#[local] Transparent Hashlib.pbkdf2_padded.

Lemma length_big_endian (n : nat) (x : Z) :
  List.length (Hashlib.big_endian n x) = n.
Proof. induction n as [|n IH]; simpl; congruence. Qed.

Lemma length_words_big_endian (l : list Z) :
  List.length (flat_map (Hashlib.big_endian 4) l) = (4 * List.length l)%nat.
Proof.
  induction l as [|x l IH]; [reflexivity|].
  cbn [flat_map]. rewrite length_app, length_big_endian, IH.
  cbn [List.length]. lia.
Qed.

Lemma length_compress (h block : list Z) :
  List.length h = 8%nat -> List.length (Hashlib.compress h block) = 8%nat.
Proof.
  intros H. unfold Hashlib.compress. cbv zeta.
  rewrite length_map, length_combine, H. reflexivity.
Qed.

Lemma length_compress_all (blocks : list (list Z)) (h : list Z) :
  List.length h = 8%nat ->
  List.length (fold_left Hashlib.compress blocks h) = 8%nat.
Proof.
  revert h. induction blocks as [|b blocks IH]; intros h H; [exact H|].
  cbn [fold_left]. apply IH. now apply length_compress.
Qed.

Lemma length_sha256 (msg : list byte) : List.length (Hashlib.sha256 msg) = 32%nat.
Proof.
  unfold Hashlib.sha256. cbv zeta.
  rewrite length_map, length_words_big_endian, length_compress_all;
    reflexivity.
Qed.

Lemma length_pbkdf2 (password salt : list byte) (iterations : N) :
  List.length (Hashlib.pbkdf2_hmac_sha256 password salt iterations) = 32%nat.
Proof.
  unfold Hashlib.pbkdf2_hmac_sha256, Hashlib.pbkdf2_padded. cbv zeta.
  refine (proj2 (N.iter_invariant (iterations - 1) _
                   (Hashlib.pbkdf2_step (Hashlib.hmac_key password))
                   (fun ut => List.length (fst ut) = 32%nat
                              /\ List.length (snd ut) = 32%nat) _ _ _)).
  - intros [u t] [Hu Ht]. unfold Hashlib.pbkdf2_step, Hashlib.hmac_padded.
    cbn [fst snd] in *. split; [apply length_sha256|].
    unfold Hashlib.xor_bytes.
    rewrite length_map, length_combine, length_sha256, Ht. reflexivity.
  - unfold Hashlib.hmac_padded. cbn [fst snd]. split; apply length_sha256.
Qed.

#[global] Opaque Hashlib.pbkdf2_padded.

(** X3.  The record [hash_password] builds from a 32-byte salt is 64 bytes
    long and starts with the salt; [verify_password] accepts the password it
    was built from, and accepts a password exactly when it derives the stored
    key under the stored salt. *)
Theorem hash_password_round_trip (password : string) (salt : list byte) :
  List.length salt = 32%nat ->
  List.length (hash_password password salt) = 64%nat
  /\ firstn 32 (hash_password password salt) = salt
  /\ verify_password (hash_password password salt) password = true
  /\ (forall provided,
        verify_password (hash_password password salt) provided = true
        <-> derived_key provided salt = derived_key password salt).
Proof.
  intros Hlen. split; [|split; [|split]].
  - unfold hash_password. cbv zeta.
    rewrite length_app, length_pbkdf2, Hlen. reflexivity.
  - unfold hash_password. cbv zeta. rewrite <- Hlen.
    rewrite firstn_app, Nat.sub_diag, firstn_all. apply app_nil_r.
  - rewrite verify_password_hash_password by exact Hlen.
    apply bytes_eqb_refl.
  - intros provided. rewrite verify_password_hash_password by exact Hlen.
    apply bytes_eqb_eq.
Qed.

Lemma hash_password_round_trip_witness :
  verify_password (hash_password "abc" example_salt) "abc" = true.
Proof.
  exact (proj1 (proj2 (proj2
    (hash_password_round_trip "abc" example_salt eq_refl)))).
Defined.

(** ** The users table *)

Lemma register_user_seq (db : database) (username password : string)
    (salt : list byte) :
  (snd (register_user db username password salt) = true
   /\ users_seq (fst (register_user db username password salt))
      = users_seq db + 1)
  \/ register_user db username password salt = (db, false).
Proof.
  unfold register_user.
  destruct (Sql.select_where (username_where username) (users db));
    [left|right]; now cbn.
Qed.

Lemma execute_users_seq (db : database) (o : operation) :
  match o with
  | Register _ _ _ => True
  | _ => users_seq (execute db o) = users_seq db
  end.
Proof. now destruct o. Qed.

Lemma execute_users_ok (db : database) (o : operation) :
  users_ok db -> users_ok (execute db o).
Proof.
  intros H. pose proof (execute_users db o) as Eu.
  pose proof (execute_users_seq db o) as Es.
  destruct o; try (unfold users_ok; rewrite Eu, Es; exact H).
  cbn [execute]. destruct H as [H0 [H1 [H2 H3]]].
  destruct (register_user_cases db username password salt)
    as [[Hn [Ht Ev]] | [_ Ev]].
  - destruct (register_user_seq db username password salt)
      as [[_ Eseq] | Ef]; [|rewrite Ef in Ht; discriminate].
    unfold users_ok. rewrite Ev, Eseq. split; [lia|]. split; [|split].
    + rewrite map_app. apply NoDup_app; [exact H1|repeat constructor; simpl; tauto|].
      intros x Hx [<-|[]]. contradiction.
    + rewrite map_app. apply NoDup_app; [exact H2|repeat constructor; simpl; tauto|].
      intros x Hx [<-|[]]. apply in_map_iff in Hx. destruct Hx as [u [E Hin]].
      rewrite Forall_forall in H3. apply H3 in Hin. cbn [user_row Users.id] in E.
      lia.
    + apply Forall_app. split.
      * eapply Forall_impl; [|exact H3]. intros u Hu. cbv beta in *. lia.
      * constructor; [cbn [user_row Users.id]; lia|constructor].
  - rewrite Ev. cbn [fst]. now repeat split.
Qed.

Lemma run_users_ok (ops : list operation) : users_ok (run ops).
Proof.
  induction ops as [|o ops IH] using rev_ind.
  - unfold users_ok; simpl. repeat split; try constructor. lia.
  - rewrite run_snoc. now apply execute_users_ok.
Qed.

Lemma run_hash_lengths (ops : list operation) :
  Forall well_formed ops ->
  Forall (fun u => List.length (Users.password_hash u) = 64%nat)
         (users (run ops)).
Proof.
  induction ops as [|o ops IH] using rev_ind; intros Hwf; [constructor|].
  apply Forall_app in Hwf. destruct Hwf as [Hwf Ho].
  apply Forall_inv in Ho. specialize (IH Hwf).
  rewrite run_snoc. pose proof (execute_users (run ops) o) as Eu.
  destruct o; try (rewrite Eu; exact IH).
  rewrite Eu.
  destruct (register_user_cases (run ops) username password salt)
    as [[_ [_ Ev]] | [_ Ev]]; rewrite Ev; [|exact IH].
  apply Forall_app. split; [exact IH|].
  constructor; [|constructor]. cbn [user_row Users.password_hash].
  unfold hash_password. cbv zeta. cbn [well_formed] in Ho.
  rewrite length_app, length_pbkdf2, Ho. reflexivity.
Qed.

(** X2.  In every state of a history the usernames are distinct, the user
    identifiers are distinct and lie between 1 and the sequence value, and,
    the salts being 32 bytes, every stored password record is 64 bytes, so
    that the split of [verify_password] at byte 32 yields a full salt and a
    full key. *)
Theorem user_table_invariants (ops : list operation) :
  NoDup (map Users.username (users (run ops)))
  /\ NoDup (map Users.id (users (run ops)))
  /\ (forall u, In u (users (run ops)) ->
                1 <= Users.id u <= users_seq (run ops))
  /\ (Forall well_formed ops ->
      forall u, In u (users (run ops)) ->
                List.length (firstn 32 (Users.password_hash u)) = 32%nat
                /\ List.length (skipn 32 (Users.password_hash u)) = 32%nat).
Proof.
  destruct (run_users_ok ops) as [_ [H1 [H2 H3]]].
  rewrite Forall_forall in H3.
  split; [exact H1|]. split; [exact H2|]. split; [exact H3|].
  intros Hwf u Hu. pose proof (run_hash_lengths ops Hwf) as Hl.
  rewrite Forall_forall in Hl. specialize (Hl u Hu).
  rewrite length_firstn, length_skipn, Hl. split; reflexivity.
Qed.

(** X1.  Registering a username that is already registered, with whatever
    password, returns false and leaves the store as it was, so the record of
    the first registration is kept. *)
Theorem register_user_twice (ops : list operation) (username password : string)
    (salt : list byte) (user_id : Z) (password' : string) (salt' : list byte) :
  registered ops username password salt user_id ->
  register_user (run ops) username password' salt' = (run ops, false)
  /\ In (user_row user_id username password salt) (users (run ops)).
Proof.
  intros Hreg. pose proof (registered_row _ _ _ _ _ Hreg) as Hin.
  split; [|exact Hin].
  destruct (register_user_cases (run ops) username password' salt')
    as [[Hn _] | [_ E]]; [|exact E].
  elim Hn. apply in_map_iff. exists (user_row user_id username password salt).
  split; [reflexivity|exact Hin].
Qed.

Lemma register_user_twice_witness :
  register_user (run alice_registered) "alice" "other" example_salt
  = (run alice_registered, false).
Proof.
  exact (proj1 (register_user_twice alice_registered "alice" "abc"
                  example_salt 1 "other" example_salt alice_is_registered)).
Defined.

(** ** The login card *)

Lemma len_nonneg (s : string) : 0 <= LoginFrame.len s.
Proof.
  induction s as [|c s IH]; cbn [LoginFrame.len]; [lia|].
  destruct (LoginFrame.is_continuation c); lia.
Qed.

Lemma long_password_truthy (password : string) :
  6 <= LoginFrame.len password -> TodoApp.truthy password = true.
Proof.
  destruct password as [|c s]; cbn [LoginFrame.len]; [lia|reflexivity].
Qed.

(** X14.  Round trip of the login card: registering a free, non-empty
    username with a password of at least six characters reports success and
    stores the user, and a login with the same username and password then
    opens the main window for the identifier the new user received. *)
Theorem register_then_login (ops : list operation) (username password : string)
    (salt : list byte) :
  Forall well_formed ops ->
  List.length salt = 32%nat ->
  TodoApp.truthy username = true ->
  6 <= LoginFrame.len password ->
  ~ In username (map Users.username (users (run ops))) ->
  LoginFrame.register (run ops) username password salt
  = (run (ops ++ [Register username password salt]),
     TodoApp.showinfo "Success" "Registration successful! You can now login.")
  /\ LoginFrame.login (run (ops ++ [Register username password salt]))
                      username password
     = LoginFrame.show_main_app (users_seq (run ops) + 1) username.
Proof.
  intros Hwf Hlen Hu Hp Hfree.
  pose proof (long_password_truthy password Hp) as Hpt.
  destruct (register_user_cases (run ops) username password salt)
    as [[_ [Hs _]] | [Hin _]]; [|contradiction].
  split.
  - unfold LoginFrame.register. rewrite Hu, Hpt. cbn [negb orb].
    rewrite (proj2 (Z.ltb_ge _ _) Hp). rewrite run_snoc. cbn [execute].
    destruct (register_user (run ops) username password salt) as [db' success].
    cbn [snd] in Hs. cbn [fst]. now rewrite Hs.
  - unfold LoginFrame.login. rewrite Hu, Hpt. cbn [negb orb].
    rewrite (authenticate_user_lookup (ops ++ [Register username password salt])
               username password salt (users_seq (run ops) + 1) password).
    + rewrite bytes_eqb_refl.
      destruct (run_users_ok ops) as [H0 _].
      now rewrite (proj2 (Z.eqb_neq (users_seq (run ops) + 1) 0)) by lia.
    + apply Forall_app. split; [exact Hwf|]. now repeat constructor.
    + exists ops, []. now repeat split.
Qed.

Lemma register_then_login_witness :
  LoginFrame.login (run ([] ++ [Register "alice" "abcdef" example_salt]))
                   "alice" "abcdef"
  = LoginFrame.show_main_app (users_seq (run []) + 1) "alice".
Proof.
  refine (proj2 (register_then_login [] "alice" "abcdef" example_salt
                   _ _ _ _ _)).
  - constructor.
  - reflexivity.
  - reflexivity.
  - cbv. discriminate.
  - intros [].
Defined.

(** X15.  The registration handler stores nothing and shows an error when
    the username is empty, when the password has fewer than six characters,
    or when the username is already registered. *)
Theorem register_rejects (db : database) (username password : string)
    (salt : list byte) :
  TodoApp.truthy username = false
  \/ LoginFrame.len password < 6
  \/ In username (map Users.username (users db)) ->
  fst (LoginFrame.register db username password salt) = db
  /\ exists message,
       snd (LoginFrame.register db username password salt)
       = TodoApp.showerror "Error" message.
Proof.
  intros H. unfold LoginFrame.register.
  destruct (negb (TodoApp.truthy username) || negb (TodoApp.truthy password))
    eqn:Eg; [cbn; eauto|].
  apply orb_false_iff in Eg. destruct Eg as [Eu _].
  apply negb_false_iff in Eu.
  destruct (LoginFrame.len password <? 6) eqn:El; [cbn; eauto|].
  apply Z.ltb_ge in El.
  destruct H as [H|[H|H]]; [congruence|lia|].
  destruct (register_user_cases db username password salt)
    as [[Hn _] | [_ E]]; [contradiction|].
  rewrite E. cbn. eauto.
Qed.

Lemma register_rejects_witness :
  fst (LoginFrame.register empty_database "bob" "12345" example_salt)
  = empty_database.
Proof.
  refine (proj1 (register_rejects empty_database "bob" "12345" example_salt _)).
  right. left. reflexivity.
Defined.

(** ** The save handler *)

Lemma optional_nonempty (s : string) : TodoApp.optional s <> Some "".
Proof.
  unfold TodoApp.optional, TodoApp.truthy.
  destruct (String.eqb_spec s ""); cbn [negb]; congruence.
Qed.

Lemma update_todo_unmatched (db : database) (todo_id : Z)
    (title description : string) (due_time priority : option string) :
  snd (update_todo db todo_id title description due_time priority) = false ->
  fst (update_todo db todo_id title description due_time priority) = db.
Proof.
  unfold update_todo; cbn [fst snd]. intros H.
  rewrite update_where_unmatched by (apply unmatched_iff; exact H).
  apply with_todos_same.
Qed.

(** X11.  In add mode [save_todo] either reports success and appends one
    todo of the logged-in user on the calendar's date, with the form's title
    and a due time that is NULL or a non-empty string, and the overdue query
    of [get_todo_stats], run for any user at the clock readings of the call,
    does not select this todo, so that every overdue count is what it was;
    or it shows an error and leaves the store as it was.  The guards of the
    handler and the query compare dates and times as texts. *)
Theorem save_todo_add_mode (validate_time_format : string -> bool)
    (db : database) (v : TodoApp.view) (f : TodoApp.form)
    (current_date current_time : string) :
  TodoApp.save_btn v = "Add Todo" ->
  0 <= todos_seq db ->
  (snd (TodoApp.save_todo validate_time_format db v f current_date current_time)
   = TodoApp.showinfo "Success" "Todo added successfully"
   /\ exists r,
        todos (fst (TodoApp.save_todo validate_time_format db v f
                                      current_date current_time))
        = todos db ++ [r]
        /\ Todos.user_id r = TodoApp.user_id v
        /\ Todos.date r = TodoApp.calendar v
        /\ Todos.title r = TodoApp.title_entry f
        /\ Todos.title r <> ""
        /\ Todos.due_time r = TodoApp.optional (TodoApp.due_time_entry f)
        /\ Todos.status r = "pending"
        /\ forall user_id,
             Sql.holds (overdue_where user_id current_date current_time r)
             = false
             /\ overdue (get_todo_stats
                           (fst (TodoApp.save_todo validate_time_format db v f
                                                   current_date current_time))
                           user_id current_date current_time)
                = overdue (get_todo_stats db user_id
                                          current_date current_time))
  \/ (fst (TodoApp.save_todo validate_time_format db v f
                             current_date current_time) = db
      /\ exists message,
           snd (TodoApp.save_todo validate_time_format db v f
                                  current_date current_time)
           = TodoApp.showerror "Error" message).
Proof.
  intros Hmode Hseq. unfold TodoApp.save_todo. cbv zeta. rewrite Hmode.
  change (String.eqb "Add Todo" "Add Todo") with true.
  change (String.eqb "Add Todo" "Update Todo") with false.
  cbn [andb].
  destruct (TodoApp.truthy (TodoApp.due_time_entry f)
            && negb (validate_time_format (TodoApp.due_time_entry f)));
    [right; cbn; eauto|].
  destruct (TodoApp.truthy (TodoApp.title_entry f)) eqn:Ht; cbn [negb];
    [|right; cbn; eauto].
  destruct (String.ltb (TodoApp.calendar v) current_date) eqn:Hd;
    [right; cbn; eauto|].
  destruct (String.eqb (TodoApp.calendar v) current_date
            && TodoApp.truthy (TodoApp.due_time_entry f)
            && String.ltb (TodoApp.due_time_entry f) current_time) eqn:Hdue;
    [right; cbn; eauto|].
  left. unfold add_todo. cbv zeta.
  rewrite (proj2 (Z.eqb_neq (todos_seq db + 1) 0)) by lia.
  cbn [negb fst snd todos]. split; [reflexivity|].
  eexists. split; [reflexivity|].
  cbn [Todos.user_id Todos.date Todos.title Todos.due_time Todos.status].
  do 3 (split; [reflexivity|]).
  split.
  { unfold TodoApp.truthy in Ht. apply negb_true_iff in Ht.
    now apply String.eqb_neq. }
  do 2 (split; [reflexivity|]).
  assert (Hnot : forall user_id,
            Sql.holds
              (overdue_where user_id current_date current_time
                 {| Todos.id := todos_seq db + 1;
                    Todos.user_id := TodoApp.user_id v;
                    Todos.date := TodoApp.calendar v;
                    Todos.title := TodoApp.title_entry f;
                    Todos.description := TodoApp.description_text f;
                    Todos.status := "pending";
                    Todos.due_time :=
                      TodoApp.optional (TodoApp.due_time_entry f);
                    Todos.completed_date := None;
                    Todos.priority := TodoApp.priority_var f |})
            = false).
  { intros user_id. rewrite overdue_where_holds. apply andb_false_intro2.
    unfold is_overdue_b.
    cbn [Todos.user_id Todos.date Todos.title Todos.due_time Todos.status].
    rewrite Hd. cbn [orb]. unfold TodoApp.optional.
    destruct (String.eqb (TodoApp.calendar v) current_date); [|reflexivity].
    destruct (TodoApp.truthy (TodoApp.due_time_entry f));
      cbn [andb] in *; [|reflexivity].
    now rewrite Hdue. }
  intros user_id. split; [apply Hnot|].
  unfold get_todo_stats, Sql.rowcount, Sql.select_where.
  cbn [overdue todos]. rewrite filter_app. cbn [filter].
  rewrite Hnot, app_nil_r. reflexivity.
Qed.

Lemma save_todo_add_mode_witness :
  (snd (TodoApp.save_todo (fun _ => true) two_pending_todos add_mode_view
                          titled_form "2024-01-10" "08:00")
   = TodoApp.showinfo "Success" "Todo added successfully"
   /\ exists r,
        todos (fst (TodoApp.save_todo (fun _ => true) two_pending_todos
                                      add_mode_view titled_form
                                      "2024-01-10" "08:00"))
        = todos two_pending_todos ++ [r]
        /\ Todos.user_id r = TodoApp.user_id add_mode_view
        /\ Todos.date r = TodoApp.calendar add_mode_view
        /\ Todos.title r = TodoApp.title_entry titled_form
        /\ Todos.title r <> ""
        /\ Todos.due_time r
           = TodoApp.optional (TodoApp.due_time_entry titled_form)
        /\ Todos.status r = "pending"
        /\ forall user_id,
             Sql.holds (overdue_where user_id "2024-01-10" "08:00" r) = false
             /\ overdue (get_todo_stats
                           (fst (TodoApp.save_todo (fun _ => true)
                                   two_pending_todos add_mode_view titled_form
                                   "2024-01-10" "08:00"))
                           user_id "2024-01-10" "08:00")
                = overdue (get_todo_stats two_pending_todos user_id
                                          "2024-01-10" "08:00"))
  \/ (fst (TodoApp.save_todo (fun _ => true) two_pending_todos add_mode_view
                             titled_form "2024-01-10" "08:00")
      = two_pending_todos
      /\ exists message,
           snd (TodoApp.save_todo (fun _ => true) two_pending_todos
                                  add_mode_view titled_form
                                  "2024-01-10" "08:00")
           = TodoApp.showerror "Error" message).
Proof.
  refine (save_todo_add_mode (fun _ => true) two_pending_todos add_mode_view
            titled_form "2024-01-10" "08:00" _ _).
  - reflexivity.
  - cbv. discriminate.
Defined.

(** The guard against a past time compares texts as well: at half past ten
    the form with the due time 9:5 is saved, although five past nine has
    passed. *)
Example save_todo_past_unpadded_time (validate_time_format : string -> bool) :
  validate_time_format "9:5" = true ->
  TodoApp.save_todo validate_time_format empty_database add_mode_view
                    unpadded_form "2024-01-10" "10:30"
  = (unpadded_todo, TodoApp.showinfo "Success" "Todo added successfully")
  /\ before "9:5" "10:30".
Proof.
  intros Hvalid. split.
  - unfold TodoApp.save_todo. cbv zeta.
    change (TodoApp.due_time_entry unpadded_form) with "9:5".
    rewrite Hvalid. reflexivity.
  - unfold before. left. reflexivity.
Qed.

(** X12.  In update mode, on a selected todo that exists and a valid form,
    [save_todo] reports success and overwrites the title, the description
    and the priority with the form's; an empty due-time field leaves the
    stored due time as it was, so the form cannot clear it; and the todo
    keeps its date, whatever date the calendar shows, its owner, its status
    and its completed date. *)
Theorem save_todo_update_mode (validate_time_format : string -> bool)
    (db : database) (v : TodoApp.view) (f : TodoApp.form)
    (current_date current_time : string) (todo_id : Z) (r : Todos.row) :
  TodoApp.save_btn v = "Update Todo" ->
  TodoApp.selected_todo_id v = Some todo_id ->
  find_todo db todo_id = Some r ->
  TodoApp.truthy (TodoApp.title_entry f) = true ->
  (TodoApp.truthy (TodoApp.due_time_entry f) = true ->
   validate_time_format (TodoApp.due_time_entry f) = true) ->
  snd (TodoApp.save_todo validate_time_format db v f current_date current_time)
  = TodoApp.showinfo "Success" "Todo updated successfully"
  /\ exists r',
       find_todo (fst (TodoApp.save_todo validate_time_format db v f
                                         current_date current_time)) todo_id
       = Some r'
       /\ Todos.title r' = TodoApp.title_entry f
       /\ Todos.description r' = TodoApp.description_text f
       /\ Todos.priority r' = TodoApp.priority_var f
       /\ Todos.due_time r'
          = (if TodoApp.truthy (TodoApp.due_time_entry f)
             then Some (TodoApp.due_time_entry f)
             else Todos.due_time r)
       /\ Todos.date r' = Todos.date r
       /\ Todos.user_id r' = Todos.user_id r
       /\ Todos.status r' = Todos.status r
       /\ Todos.completed_date r' = Todos.completed_date r.
Proof.
  intros Hmode Hsel Hfind Htitle Hvalid.
  unfold TodoApp.save_todo. cbv zeta. rewrite Hmode, Hsel, Htitle.
  change (String.eqb "Update Todo" "Add Todo") with false.
  change (String.eqb "Update Todo" "Update Todo") with true.
  cbn [andb negb].
  assert (Hfmt : TodoApp.truthy (TodoApp.due_time_entry f)
                 && negb (validate_time_format (TodoApp.due_time_entry f))
                 = false).
  { destruct (TodoApp.truthy (TodoApp.due_time_entry f)); [|reflexivity].
    now rewrite Hvalid. }
  rewrite Hfmt. unfold update_todo.
  rewrite (find_todo_matched db todo_id r Hfind). cbn [fst snd].
  split; [reflexivity|].
  rewrite (find_todo_updated _ _ _ _ Hfind).
  eexists. split; [reflexivity|].
  destruct (update_todo_query_effect (TodoApp.title_entry f)
              (TodoApp.description_text f)
              (TodoApp.optional (TodoApp.due_time_entry f))
              (Some (TodoApp.priority_var f)) r)
    as [E1 [E2 [E3 [E4 [E5 E6]]]]].
  destruct (assign_all_frame
              (update_todo_query (TodoApp.title_entry f)
                 (TodoApp.description_text f)
                 (TodoApp.optional (TodoApp.due_time_entry f))
                 (Some (TodoApp.priority_var f))) r)
    as [_ [F2 F3]].
  repeat split; try assumption.
  rewrite E3. unfold TodoApp.optional.
  now destruct (TodoApp.truthy (TodoApp.due_time_entry f)).
Qed.

Lemma save_todo_update_mode_witness :
  exists r',
    find_todo (fst (TodoApp.save_todo (fun _ => true) two_pending_todos
                                      edit_mode_view no_due_time_form
                                      "2024-01-10" "08:00")) 1
    = Some r'
    /\ Todos.title r' = TodoApp.title_entry no_due_time_form
    /\ Todos.description r' = TodoApp.description_text no_due_time_form
    /\ Todos.priority r' = TodoApp.priority_var no_due_time_form
    /\ Todos.due_time r'
       = (if TodoApp.truthy (TodoApp.due_time_entry no_due_time_form)
          then Some (TodoApp.due_time_entry no_due_time_form)
          else Todos.due_time
                 {| Todos.id := 1; Todos.user_id := 1;
                    Todos.date := "2024-01-10"; Todos.title := "Call bank";
                    Todos.description := ""; Todos.status := "pending";
                    Todos.due_time := Some "09:00";
                    Todos.completed_date := None;
                    Todos.priority := "high" |})
    /\ Todos.date r' = "2024-01-10"
    /\ Todos.user_id r' = 1
    /\ Todos.status r' = "pending"
    /\ Todos.completed_date r' = None.
Proof.
  refine (proj2 (save_todo_update_mode (fun _ => true) two_pending_todos
                   edit_mode_view no_due_time_form "2024-01-10" "08:00" 1
                   {| Todos.id := 1; Todos.user_id := 1;
                      Todos.date := "2024-01-10"; Todos.title := "Call bank";
                      Todos.description := ""; Todos.status := "pending";
                      Todos.due_time := Some "09:00";
                      Todos.completed_date := None;
                      Todos.priority := "high" |}
                   _ _ _ _ _)); reflexivity.
Defined.

Lemma update_keeps_due_times (db : database) (todo_id : Z)
    (title description : string) (due_time priority : option string) :
  due_time <> Some "" ->
  due_times_nonempty db ->
  due_times_nonempty
    (fst (update_todo db todo_id title description due_time priority)).
Proof.
  intros Hd H. unfold due_times_nonempty, update_todo in *.
  cbn [fst with_todos todos]. apply update_where_Forall; [|exact H].
  intros r Hr.
  destruct (update_todo_query_effect title description due_time priority r)
    as [_ [_ [E _]]].
  rewrite E. now destruct due_time.
Qed.

(** X13.  Whatever the mode and the form, [save_todo] either reports a
    success or shows an error and leaves the store as it was; it never
    changes the users table, and it never stores the empty string as a due
    time: a store without empty due times stays so. *)
Theorem save_todo_all_or_nothing (validate_time_format : string -> bool)
    (db : database) (v : TodoApp.view) (f : TodoApp.form)
    (current_date current_time : string) :
  0 <= todos_seq db ->
  ((exists message,
      snd (TodoApp.save_todo validate_time_format db v f
                             current_date current_time)
      = TodoApp.showinfo "Success" message)
   \/ (fst (TodoApp.save_todo validate_time_format db v f
                              current_date current_time) = db
       /\ exists message,
            snd (TodoApp.save_todo validate_time_format db v f
                                   current_date current_time)
            = TodoApp.showerror "Error" message))
  /\ users (fst (TodoApp.save_todo validate_time_format db v f
                                   current_date current_time)) = users db
  /\ (due_times_nonempty db ->
      due_times_nonempty
        (fst (TodoApp.save_todo validate_time_format db v f
                                current_date current_time))).
Proof.
  intros Hseq. unfold TodoApp.save_todo. cbv zeta.
  destruct (TodoApp.truthy (TodoApp.due_time_entry f)
            && negb (validate_time_format (TodoApp.due_time_entry f)));
    [cbn; eauto 6|].
  destruct (negb (TodoApp.truthy (TodoApp.title_entry f))); [cbn; eauto 6|].
  destruct (String.eqb (TodoApp.save_btn v) "Add Todo"
            && String.ltb (TodoApp.calendar v) current_date);
    [cbn; eauto 6|].
  destruct (String.eqb (TodoApp.save_btn v) "Add Todo"
            && String.eqb (TodoApp.calendar v) current_date
            && TodoApp.truthy (TodoApp.due_time_entry f)
            && String.ltb (TodoApp.due_time_entry f) current_time);
    [cbn; eauto 6|].
  destruct (String.eqb (TodoApp.save_btn v) "Update Todo").
  - destruct (TodoApp.selected_todo_id v) as [todo_id|]; [|cbn; eauto 6].
    pose proof (update_todo_unmatched db todo_id (TodoApp.title_entry f)
                  (TodoApp.description_text f)
                  (TodoApp.optional (TodoApp.due_time_entry f))
                  (Some (TodoApp.priority_var f))) as Hun.
    pose proof (update_keeps_due_times db todo_id (TodoApp.title_entry f)
                  (TodoApp.description_text f)
                  (TodoApp.optional (TodoApp.due_time_entry f))
                  (Some (TodoApp.priority_var f))
                  (optional_nonempty _)) as Hdue.
    destruct (update_todo db todo_id (TodoApp.title_entry f)
                (TodoApp.description_text f)
                (TodoApp.optional (TodoApp.due_time_entry f))
                (Some (TodoApp.priority_var f))) as [db' ok] eqn:E.
    assert (Hu : users db' = users db).
    { unfold update_todo in E. injection E as <- _. reflexivity. }
    cbn [fst snd] in Hun, Hdue.
    destruct ok; cbn [fst snd].
    + split; [left; eauto|]. split; [exact Hu|exact Hdue].
    + rewrite (Hun eq_refl) in *. split; [right; eauto|]. split; auto.
  - unfold add_todo. cbv zeta.
    rewrite (proj2 (Z.eqb_neq (todos_seq db + 1) 0)) by lia.
    cbn [negb fst snd users todos]. split; [left; eauto|].
    split; [reflexivity|].
    intros H. unfold due_times_nonempty in *. cbn [todos].
    apply Forall_app. split; [exact H|].
    constructor; [|constructor]. cbn [Todos.due_time].
    apply optional_nonempty.
Qed.

Lemma save_todo_all_or_nothing_witness :
  users (fst (TodoApp.save_todo (fun _ => true) two_pending_todos add_mode_view
                                titled_form "2024-01-10" "08:00"))
  = users two_pending_todos.
Proof.
  refine (proj1 (proj2
    (save_todo_all_or_nothing (fun _ => true) two_pending_todos add_mode_view
       titled_form "2024-01-10" "08:00" _))).
  cbv. discriminate.
Defined.

(** ** The overdue tags of the list views *)

Lemma Permutation_filter {X : Type} (f : X -> bool) (l l' : list X) :
  Permutation l l' -> Permutation (filter f l) (filter f l').
Proof.
  induction 1 as [|x l l' _ IH|x y l|l l' l'' _ IH1 _ IH2]; cbn [filter].
  - constructor.
  - destruct (f x); [now constructor|exact IH].
  - destruct (f x), (f y); try reflexivity. apply perm_swap.
  - now transitivity (filter f l').
Qed.

Lemma filter_none {X : Type} (f : X -> bool) (l : list X) :
  (forall x, In x l -> f x = false) -> filter f l = [].
Proof.
  induction l as [|x l IH]; intros H; [reflexivity|].
  cbn [filter]. rewrite (H x (or_introl eq_refl)).
  apply IH. intros y Hy. apply H. now right.
Qed.

Lemma filter_filter {X : Type} (f g : X -> bool) (l : list X) :
  filter f (filter g l) = filter (fun x => g x && f x) l.
Proof.
  induction l as [|x l IH]; [reflexivity|].
  cbn [filter]. destruct (g x); cbn [filter andb]; now rewrite IH.
Qed.

Lemma overdue_count (db : database) (user_id : Z)
    (current_date current_time : string) :
  overdue (get_todo_stats db user_id current_date current_time)
  = Z.of_nat (List.length
                (filter (fun r => (Todos.user_id r =? user_id)
                                  && is_overdue_b current_date current_time r)
                        (todos db))).
Proof.
  unfold get_todo_stats, Sql.rowcount; cbn [overdue].
  now rewrite (select_where_filter _ _ _
                 (overdue_where_holds user_id current_date current_time)).
Qed.

Lemma overdue_condition_select (current_date current_time : string)
    (r : Todos.row) :
  Todos.due_time r <> Some "" ->
  TodoApp.overdue_condition current_date current_time (select_columns r)
  = is_overdue_b current_date current_time r.
Proof.
  intros Hd. unfold TodoApp.overdue_condition, is_overdue_b.
  cbn [select_columns Selected.status Selected.date Selected.due_time].
  destruct (Todos.due_time r) as [t|]; [|reflexivity].
  assert (Ht : TodoApp.truthy t = true).
  { unfold TodoApp.truthy. apply negb_true_iff, String.eqb_neq. congruence. }
  now rewrite Ht.
Qed.

Lemma tag_is_overdue (current_date current_time : string) (s : Selected.row) :
  Selected.status s <> "overdue" ->
  String.eqb (fst (TodoApp.tags (TodoApp.tree_insert current_date current_time s)))
             "overdue"
  = TodoApp.overdue_condition current_date current_time s.
Proof.
  intros Hs. unfold TodoApp.tree_insert. cbv zeta. cbn [TodoApp.tags fst].
  destruct (TodoApp.overdue_condition current_date current_time s);
    [reflexivity|]. now apply String.eqb_neq.
Qed.

Lemma tagged_overdue_count (current_date current_time : string)
    (l : list Selected.row) :
  Forall (fun s => Selected.status s <> "overdue") l ->
  TodoApp.tagged_overdue (map (TodoApp.tree_insert current_date current_time) l)
  = Z.of_nat (List.length
                (filter (TodoApp.overdue_condition current_date current_time) l)).
Proof.
  intros H. unfold TodoApp.tagged_overdue. rewrite filter_map_swap, length_map.
  f_equal. f_equal. apply filter_ext_in. intros s Hs.
  rewrite Forall_forall in H. now apply tag_is_overdue, H.
Qed.

Lemma pending_view_overdue_count (db : database) (user_id : Z)
    (current_date current_time : string) :
  due_times_nonempty db ->
  List.length (filter (TodoApp.overdue_condition current_date current_time)
                      (get_todos_by_priority db user_id))
  = List.length (filter (fun r => (Todos.user_id r =? user_id)
                                  && is_overdue_b current_date current_time r)
                        (todos db)).
Proof.
  intros Hd. destruct (get_todos_by_priority_sorted db user_id) as [Hp _].
  rewrite (Permutation_length
             (Permutation_filter
                (TodoApp.overdue_condition current_date current_time) _ _ Hp)).
  rewrite filter_map_swap, length_map, filter_filter.
  f_equal. apply filter_ext_in. intros r Hr.
  unfold due_times_nonempty in Hd. rewrite Forall_forall in Hd.
  rewrite (overdue_condition_select _ _ r (Hd r Hr)).
  unfold with_status, is_overdue_b.
  now destruct (Todos.user_id r =? user_id),
               (String.eqb (Todos.status r) "pending").
Qed.

(** X10.  The overdue tags of the list views agree with the statistics.  In
    a state of a history without empty due times, the condition the views
    evaluate in Python tags a row overdue exactly when the overdue query of
    [get_todo_stats], run for the owner of the row at the same clock
    readings, selects the row; the rows of the pending view are tagged
    overdue or pending; and the number of rows that [show_all_by_priority]
    leaves tagged overdue is the overdue count of [get_todo_stats].  Both
    sides compare dates and times as texts. *)
Theorem overdue_tags_match_stats (ops : list operation) (v : TodoApp.view)
    (shown_date current_date current_time : string) :
  due_times_nonempty (run ops) ->
  (forall r, In r (todos (run ops)) ->
     (fst (TodoApp.tags (TodoApp.tree_insert current_date current_time
                                             (select_columns r)))
      = "overdue"
      <-> Sql.holds (overdue_where (Todos.user_id r)
                                   current_date current_time r) = true))
  /\ (forall s, In s (get_todos_by_priority (run ops) (TodoApp.user_id v)) ->
        fst (TodoApp.tags (TodoApp.tree_insert current_date current_time s))
        = "overdue"
        \/ fst (TodoApp.tags (TodoApp.tree_insert current_date current_time s))
           = "pending")
  /\ TodoApp.tagged_overdue
       (TodoApp.tree (TodoApp.show_all_by_priority (run ops) v shown_date
                                                   current_date current_time))
     = overdue (get_todo_stats (run ops) (TodoApp.user_id v)
                               current_date current_time).
Proof.
  intros Hd. destruct (run_todos_ok ops) as [_ [_ [_ Hst]]].
  rewrite Forall_forall in Hst.
  assert (Hno : forall r, In r (todos (run ops)) ->
                          Selected.status (select_columns r) <> "overdue").
  { intros r Hr. cbn [select_columns Selected.status].
    destruct (Hst r Hr) as [-> | ->]; discriminate. }
  split; [|split].
  - intros r Hr. rewrite overdue_where_holds, Z.eqb_refl. cbn [andb].
    unfold due_times_nonempty in Hd. rewrite Forall_forall in Hd.
    rewrite <- (overdue_condition_select _ _ r (Hd r Hr)).
    rewrite <- (tag_is_overdue _ _ _ (Hno r Hr)).
    apply iff_sym, String.eqb_eq.
  - intros s Hs. apply in_get_todos_by_priority in Hs.
    destruct Hs as [r [_ [_ [Hp ->]]]].
    unfold TodoApp.tree_insert. cbv zeta. cbn [TodoApp.tags fst].
    destruct (TodoApp.overdue_condition _ _ _); [now left|right].
    exact Hp.
  - rewrite overdue_count, <- (pending_view_overdue_count _ _ _ _ Hd).
    unfold TodoApp.show_all_by_priority.
    destruct (get_todos_by_priority (run ops) (TodoApp.user_id v))
      as [|s0 l] eqn:E.
    + cbn [TodoApp.tree TodoApp.load_todos_for_date filter List.length].
      rewrite tagged_overdue_count.
      * f_equal. rewrite filter_none; [reflexivity|].
        intros s Hs. apply in_get_todos_by_date in Hs.
        destruct Hs as [r [Hr [Hu [_ ->]]]].
        unfold TodoApp.overdue_condition. cbn [select_columns Selected.status].
        destruct (String.eqb_spec (Todos.status r) "pending") as [Ep|Ep];
          [|reflexivity].
        exfalso.
        assert (Hin : In (select_columns r)
                         (get_todos_by_priority (run ops) (TodoApp.user_id v))).
        { apply in_get_todos_by_priority. exists r. now repeat split. }
        rewrite E in Hin. exact Hin.
      * apply Forall_forall. intros s Hs. apply in_get_todos_by_date in Hs.
        destruct Hs as [r [Hr [_ [_ ->]]]]. now apply Hno.
    + cbn [TodoApp.tree]. rewrite tagged_overdue_count; [reflexivity|].
      apply Forall_forall. intros s Hs. rewrite <- E in Hs.
      apply in_get_todos_by_priority in Hs.
      destruct Hs as [r [Hr [_ [_ ->]]]]. now apply Hno.
Qed.

Lemma overdue_tags_match_stats_witness :
  TodoApp.tagged_overdue
    (TodoApp.tree
       (TodoApp.show_all_by_priority
          (run [AddTodo 1 "2024-01-09" "Pay rent" "" None "medium"])
          add_mode_view "2024-01-10" "2024-01-10" "08:00"))
  = overdue (get_todo_stats
               (run [AddTodo 1 "2024-01-09" "Pay rent" "" None "medium"])
               (TodoApp.user_id add_mode_view) "2024-01-10" "08:00").
Proof.
  refine (proj2 (proj2
    (overdue_tags_match_stats
       [AddTodo 1 "2024-01-09" "Pay rent" "" None "medium"]
       add_mode_view "2024-01-10" "2024-01-10" "08:00" _))).
  repeat constructor. discriminate.
Defined.

(** ** Newest first, and the size of the pending view *)

Lemma StronglySorted_around {X : Type} (R : X -> X -> Prop)
    (before after : list X) (x : X) :
  StronglySorted R (before ++ x :: after) ->
  Forall (fun y => R y x) before /\ Forall (R x) after.
Proof.
  induction before as [|y before IH]; cbn [app]; intros H.
  - apply StronglySorted_inv in H. split; [constructor|tauto].
  - apply StronglySorted_inv in H. destruct H as [Hs Hy].
    destruct (IH Hs) as [Hb Ha]. split; [|exact Ha].
    constructor; [|exact Hb].
    rewrite Forall_forall in Hy. apply Hy. apply in_or_app. right. now left.
Qed.

Lemma get_todos_by_date_sorted (db : database) (user_id : Z) (date : string) :
  StronglySorted daily_view_order (get_todos_by_date db user_id date).
Proof.
  unfold get_todos_by_date.
  eapply StronglySorted_map; [apply by_date_key_order|].
  apply order_by_sorted. unfold by_date_cmp. typeclasses eauto.
Qed.

Lemma get_todos_by_date_ids (db : database) (user_id : Z) (date : string) :
  NoDup (map Todos.id (todos db)) ->
  NoDup (map Selected.todo_id (get_todos_by_date db user_id date)).
Proof.
  intros H. unfold get_todos_by_date. rewrite map_map.
  cbn [select_columns Selected.todo_id].
  eapply Permutation_NoDup.
  - apply Permutation_sym, Permutation_map, order_by_perm.
  - unfold Sql.select_where. now apply NoDup_map_filter.
Qed.

Lemma rank_lt_irrefl (a : option Z) : ~ rank_lt a a.
Proof. destruct a; simpl; [lia|tauto]. Qed.

(** X17.  Most recently created first: in the daily view after an
    [add_todo], every row listed before the new todo has a strictly smaller
    priority rank than it, and no row listed after it has a smaller rank,
    where high has rank 1, medium rank 2 and low rank 3; so among the todos
    of its priority the new one comes first, a new high todo is listed
    first of all and a new low todo after every high and medium one. *)
Theorem newest_first_within_priority (ops : list operation) (user_id : Z)
    (date title description : string) (due_time : option string)
    (priority : string) (before after : list Selected.row) :
  let A := add_todo (run ops) user_id date title description due_time priority in
  let added := {| Selected.todo_id := snd A;
                  Selected.date := date;
                  Selected.title := title;
                  Selected.description := description;
                  Selected.status := "pending";
                  Selected.due_time := due_time;
                  Selected.priority := priority |} in
  get_todos_by_date (fst A) user_id date = before ++ added :: after ->
  Forall (fun s => rank_lt (specified_rank (Selected.priority s))
                           (specified_rank priority)) before
  /\ Forall (fun s => ~ rank_lt (specified_rank (Selected.priority s))
                                (specified_rank priority)) after.
Proof.
  cbv zeta. intros E.
  pose proof (get_todos_by_date_sorted
                (fst (add_todo (run ops) user_id date title description
                               due_time priority)) user_id date) as Hs.
  pose proof (get_todos_by_date_ids _ user_id date
                (proj1 (proj2 (run_todos_ok (ops ++ [AddTodo user_id date title
                                                      description due_time
                                                      priority]))))) as Hnd.
  rewrite run_snoc in Hnd. cbn [execute] in Hnd.
  destruct (run_todos_ok ops) as [_ [_ [Hrange _]]].
  rewrite Forall_forall in Hrange.
  rewrite E in Hs, Hnd.
  assert (Hold : forall s, In s (before ++ after) ->
                           Selected.todo_id s < todos_seq (run ops) + 1).
  { intros s Hin.
    assert (Hv : In s (before ++ {| Selected.todo_id := todos_seq (run ops) + 1;
                                    Selected.date := date;
                                    Selected.title := title;
                                    Selected.description := description;
                                    Selected.status := "pending";
                                    Selected.due_time := due_time;
                                    Selected.priority := priority |} :: after)).
    { apply in_app_or in Hin. apply in_or_app.
      destruct Hin; [now left|right; now right]. }
    cbn [add_todo snd] in E. rewrite <- E in Hv.
    apply in_get_todos_by_date in Hv. destruct Hv as [r [Hr [_ [_ ->]]]].
    cbn [add_todo fst todos] in Hr. apply in_app_or in Hr.
    destruct Hr as [Hr|[<-|[]]].
    - apply Hrange in Hr. cbn [select_columns Selected.todo_id]. lia.
    - exfalso. cbn [add_todo snd] in Hnd. rewrite map_app in Hnd.
      cbn [map Selected.todo_id] in Hnd.
      apply NoDup_remove_2 in Hnd. apply Hnd.
      rewrite <- map_app. apply in_map_iff.
      eexists. split; [|exact Hin]. reflexivity. }
  cbn [add_todo snd] in Hs.
  destruct (StronglySorted_around _ _ _ _ Hs) as [Hb Ha].
  split; apply Forall_forall; intros s Hin.
  - rewrite Forall_forall in Hb. specialize (Hb s Hin).
    unfold daily_view_order in Hb. cbn [Selected.priority Selected.todo_id] in Hb.
    destruct Hb as [Hlt | [_ Hid]]; [exact Hlt|].
    specialize (Hold s (in_or_app _ _ _ (or_introl Hin))). lia.
  - rewrite Forall_forall in Ha. specialize (Ha s Hin).
    unfold daily_view_order in Ha. cbn [Selected.priority Selected.todo_id] in Ha.
    intros Hlt. destruct Ha as [Hlt' | [Heq _]].
    + destruct (specified_rank (Selected.priority s)) as [x|],
               (specified_rank priority) as [y|]; simpl in *; try tauto; lia.
    + rewrite Heq in Hlt. now apply rank_lt_irrefl in Hlt.
Qed.

Lemma newest_first_within_priority_witness :
  Forall (fun s => rank_lt (specified_rank (Selected.priority s))
                           (specified_rank "low"))
         [ {| Selected.todo_id := 1; Selected.date := "2024-01-10";
              Selected.title := "Buy milk"; Selected.description := "";
              Selected.status := "pending"; Selected.due_time := None;
              Selected.priority := "high" |};
           {| Selected.todo_id := 2; Selected.date := "2024-01-10";
              Selected.title := "Pay rent"; Selected.description := "";
              Selected.status := "pending"; Selected.due_time := None;
              Selected.priority := "medium" |} ]
  /\ Forall (fun s => ~ rank_lt (specified_rank (Selected.priority s))
                                (specified_rank "low"))
            [ {| Selected.todo_id := 3; Selected.date := "2024-01-10";
                 Selected.title := "Water plants"; Selected.description := "";
                 Selected.status := "pending"; Selected.due_time := None;
                 Selected.priority := "low" |} ].
Proof.
  refine (newest_first_within_priority
            [AddTodo 1 "2024-01-10" "Buy milk" "" None "high";
             AddTodo 1 "2024-01-10" "Pay rent" "" None "medium";
             AddTodo 1 "2024-01-10" "Water plants" "" None "low"]
            1 "2024-01-10" "Call bank" "" None "low" _ _ _).
  reflexivity.
Defined.

(** X18.  The pending count of [get_todo_stats] is the number of rows of
    the pending view [get_todos_by_priority] returns for the same user. *)
Theorem pending_count_is_pending_view (db : database) (user_id : Z)
    (current_date current_time : string) :
  pending (get_todo_stats db user_id current_date current_time)
  = Z.of_nat (List.length (get_todos_by_priority db user_id)).
Proof.
  destruct (get_todos_by_priority_sorted db user_id) as [Hp _].
  unfold get_todo_stats, Sql.rowcount; cbn [pending].
  rewrite (select_where_filter _ _ _ (pending_where_holds user_id)).
  rewrite (Permutation_length Hp), length_map. reflexivity.
Qed.
